(** * MultiStoryContainer: a shallow embedding of the multi-user story pager

    The development follows the component file that defines
    [MultiStoryListItem] and [MultiStoryContainer].  JavaScript objects that are spread into one another are finite maps from
    property names to values, nullable references and optional callbacks are
    [option]s, indices are integers, lengths on the screen are binary64
    floats, and everything the component does to
    its collaborators (the list handle, the caller's callbacks, the mounted
    story components) is recorded, in order, in a log kept in the mutable
    part of the state. *)

From stdpp Require Import base option list gmap strings pretty.
From Stdlib Require Import ZArith QArith Lia.
From Stdlib Require Import Floats.PrimFloat Floats.SpecFloat Floats.FloatOps.

#[local] Set Warnings "-inexact-float".
Local Open Scope Z_scope.

(** ** Numbers *)

(** Lengths on the screen are JavaScript numbers, that is binary64 floats
    with their rounding; [number z] is the float a list index or an array
    length [z] is (exact up to 2^53, rounded to nearest beyond). *)
Definition number (z : Z) : float := SF2Prim (binary_normalize prec emax z 0 false).

(** ** Values that cross the component boundary *)

(** Identities of caller-supplied functions and of mounted native handles. *)
Definition callback := nat.
Definition handle := nat.

(** Nodes a caller's render prop may return. *)
Definition node := nat.

(** Modelled from the spec: the enum [TransitionMode] of [./types], which is
    not among the sources.  The component names its members [Cube] and
    [Scale]; [Default] stands for the remaining member. *)
Inductive TransitionMode := Default | Cube | Scale.

Global Instance TransitionMode_eq_dec : EqDecision TransitionMode.
Proof. solve_decision. Defined.

(** One slide of a story group; the component only hands slides on. *)
Record StoryType := { story_id : Z }.

Module Item.
(** Modelled from the spec: the per-user story group ([StoriesType] of
    [../StoryView/types], not among the sources), with the fields the
    component reads. *)
Record StoriesType := {
  id : Z;
  username : string;
  title : string;
  profile : option string;
  stories : list StoryType;
}.
End Item.
Abbreviation StoriesType := Item.StoriesType.

(** Function values handed to [StoryContainer]: the two navigation closures
    of the container, the header and footer render props of the list item,
    and functions of the caller. *)
Inductive func :=
| FnNextStory
| FnPreviousStory
| FnRenderHeader (item : StoriesType) (onClosePress : option callback)
| FnRenderFooter
| FnCaller (f : callback).

Inductive value :=
| VUndefined
| VBool (b : bool)
| VNum (n : Z)
| VStr (s : string)
| VMode (m : TransitionMode)
| VNode (n : node)
| VUserStories (item : StoriesType)
| VStories (l : list StoryType)
| VFun (f : func).

(** ** The mutable world of one mounted container *)

(** What the component asks of its collaborators. *)
Inductive event :=
| CallOnComplete (f : callback)
| CallOnUserStoryIndexChange (f : callback) (storyIndex : Z)
| ScrollToIndex (list : handle) (index : Z) (animated : bool)
| Pause (story : handle) (paused : bool)
| HandleLongPress (story : handle) (visibility : bool).

(** The refs and the state cell of a mounted container.  A list item is
    known by the handle its [useImperativeHandle] publishes; [storyRef] maps
    it to the current content of its own [storyRef], absent while that is
    [null]. *)
Record World := {
  log : list event;                      (* requests issued so far, oldest first *)
  flatListRef : option handle;           (* flatListRef.current *)
  itemsRef : list (option handle);       (* itemsRef.current, with its holes *)
  storyRef : gmap handle handle;         (* storyRef.current of each list item *)
  isLoading : bool;                      (* useState(false) *)
  effectDeps : option (option callback * Z);
    (* dependencies of the last run of the index effect; None before mount *)
}.

Definition set_log (l : list event) (w : World) : World :=
  {| log := l; flatListRef := flatListRef w; itemsRef := itemsRef w;
     storyRef := storyRef w; isLoading := isLoading w;
     effectDeps := effectDeps w |}.

Definition set_itemsRef (l : list (option handle)) (w : World) : World :=
  {| log := log w; flatListRef := flatListRef w; itemsRef := l;
     storyRef := storyRef w; isLoading := isLoading w;
     effectDeps := effectDeps w |}.

Definition set_isLoading (b : bool) (w : World) : World :=
  {| log := log w; flatListRef := flatListRef w; itemsRef := itemsRef w;
     storyRef := storyRef w; isLoading := b; effectDeps := effectDeps w |}.

Definition set_effectDeps (d : option (option callback * Z)) (w : World) : World :=
  {| log := log w; flatListRef := flatListRef w; itemsRef := itemsRef w;
     storyRef := storyRef w; isLoading := isLoading w; effectDeps := d |}.

(** The state monad the handlers run in. *)
Definition M (A : Type) : Type := World → A * World.

Global Instance M_ret : MRet M := λ A a w, (a, w).
Global Instance M_bind : MBind M := λ A B k m w, let '(a, w') := m w in k a w'.

Definition get : M World := λ w, (w, w).
Definition emit (e : event) : M unit := λ w, (tt, set_log (log w ++ [e]) w).
Definition skip : M unit := mret tt.

(** [f?.(...)]: call the callback when there is one. *)
Definition call_opt {A} (o : option A) (k : A → M unit) : M unit :=
  match o with
  | Some a => k a
  | None => skip
  end.

(** The world after a handler, and the requests it added. *)
Definition exec (m : M unit) (w : World) : World := (m w).2.
Definition issued (m : M unit) (w : World) : list event :=
  drop (length (log w)) (log (exec m w)).

(** Array reads [a[i]]: [undefined] below zero and past the end. *)
Definition js_index {A} (l : list A) (i : Z) : option A :=
  if i <? 0 then None else l !! Z.to_nat i.

(** ** Props *)

(** A rest object [...props]: the two props the component reads itself,
    and every other key.  For the container it is what is left of its props
    after [stories], [visible], [onComplete], [onUserStoryIndexChange] and
    [viewedStories] are taken out; for a list item, what is left after its
    own nine names are taken out. *)
Record RestProps := {
  transitionMode : option TransitionMode;
  renderIndicatorComponent : option (callback * option node);
    (* the render prop and what a call of it returns; None for null/undefined *)
  forwarded : gmap string value;
}.

Record MultiStoryContainerProps := {
  stories : list StoriesType;
  visible : bool;
  onComplete : option callback;
  onUserStoryIndexChange : option callback;
  viewedStories : option (list (list bool));
  props : RestProps;
}.

(** A Reanimated shared value, read through [.value]. *)
Record SharedValue := { current : Q }.

(** What [useMultiStoryContainer] returns.  The hook is not among the
    sources; its handlers and styles are opaque identities here. *)
Record HookResult := {
  storyIndex : Z;
  scrollX : SharedValue;
  onViewRef : handle;
  viewabilityConfig : handle;
  gestureHandler : handle;
  listStyle : handle;
  rootStyle : handle;
  onScroll : handle;
}.

(** [{...a, ...b}]: the keys of [b] win. *)
Definition js_spread (a b : gmap string value) : gmap string value := b ∪ a.

(** The own keys of the rest object, as a spread copies them. *)
Definition rest_object (r : RestProps) : gmap string value :=
  let m := forwarded r in
  let m := match renderIndicatorComponent r with
           | Some (f, _) => <["renderIndicatorComponent" := VFun (FnCaller f)]> m
           | None => m
           end in
  match transitionMode r with
  | Some t => <["transitionMode" := VMode t]> m
  | None => m
  end.

(** [Array.prototype.findIndex]: the first position whose element satisfies
    the predicate, -1 when none does. *)
Definition findIndex {A} (f : A → bool) (l : list A) : Z :=
  match list_find (λ x, f x = true) l with
  | Some (i, _) => Z.of_nat i
  | None => -1
  end.

(** ** MultiStoryListItem *)

(** What a list item puts inside its [Animated.View]. *)
Inductive ItemChild (AnimatedStyle : Type) :=
| StoryContainer (animatedStyle : AnimatedStyle) (storyProps : gmap string value)
| CallerIndicator (n : node)
| Indicator.
Arguments StoryContainer {AnimatedStyle}.
Arguments CallerIndicator {AnimatedStyle}.
Arguments Indicator {AnimatedStyle}.

Record ItemView (AnimatedStyle : Type) := {
  key : Z;
  child : ItemChild AnimatedStyle;
}.
Arguments key {AnimatedStyle}.
Arguments child {AnimatedStyle}.

Section MultiStoryListItem.
(** The transitions of [./utils/StoryTransitions], which is not among the
    sources. *)
Context {AnimatedStyle : Type}.
Context (cubeTransition scaleTransition : Z → SharedValue → AnimatedStyle).
Context (defaultTransition : AnimatedStyle).
(** The destructured props. *)
Context (item : StoriesType) (index : Z) (scrollX : SharedValue).
Context (storyIndex : Z) (onComplete : option callback).
Context (viewedStories : option (list (list bool))) (isLoading : bool).
Context (props : RestProps).

Definition storyInitialIndex : option Z :=
  vs ← viewedStories; arr ← js_index vs index; Some (findIndex negb arr).

Definition animationStyle : AnimatedStyle :=
  match transitionMode props with
  | Some Cube => cubeTransition index scrollX
  | Some Scale => scaleTransition index scrollX
  | _ => defaultTransition
  end.

(** [storyInitialIndex < 0 ? 0 : storyInitialIndex]; [undefined < 0] is
    false. *)
Definition progressIndex : value :=
  match storyInitialIndex with
  | Some i => if i <? 0 then VNum 0 else VNum i
  | None => VUndefined
  end.

(** The attributes written before the spread, in source order.  [key] and
    [ref] are consumed by React and are no props of the child. *)
Definition literalProps : gmap string value :=
  <["renderFooterComponent" := VFun FnRenderFooter]>
  (<["renderHeaderComponent" := VFun (FnRenderHeader item onComplete)]>
  (<["maxVideoDuration" := VNum 15]>
  (<["progressIndex" := progressIndex]>
  (<["stories" := VStories (Item.stories item)]>
  (<["previousStory" := VFun FnPreviousStory]>
  (<["nextStory" := VFun FnNextStory]>
  (<["userStories" := VUserStories item]>
  (<["visible" := VBool true]> ∅)))))))).

Definition storyContainerProps : gmap string value :=
  <["userStoryIndex" := VNum storyIndex]>
  (<["index" := VNum index]>
  (js_spread literalProps (rest_object props))).

(** [props?.renderIndicatorComponent?.() ?? <Indicator />] *)
Definition indicator : ItemChild AnimatedStyle :=
  match renderIndicatorComponent props with
  | Some (_, Some n) => CallerIndicator n
  | _ => Indicator
  end.

Definition MultiStoryListItem : ItemView AnimatedStyle :=
  {| key := Item.id item;
     child := if bool_decide (storyIndex = index) || isLoading
              then StoryContainer animationStyle storyContainerProps
              else indicator |}.

End MultiStoryListItem.

(** The handle a list item publishes with [useImperativeHandle]; [self] is
    the item's own identity, under which its [storyRef] is kept. *)
Module ListItemRef.
Definition onScrollBegin (self : handle) : M unit :=
  w ← get; call_opt (storyRef w !! self) (λ s, emit (Pause s true)).

Definition onScrollEnd (self : handle) : M unit :=
  w ← get; call_opt (storyRef w !! self) (λ s, emit (Pause s false)).

Definition handleLongPress (self : handle) (visibility : bool) : M unit :=
  w ← get;
  call_opt (storyRef w !! self) (λ s, emit (HandleLongPress s visibility)).
End ListItemRef.

(** What [renderHeaderComponent] of a list item renders. *)
Record ProfileHeader := {
  userImage : string;                      (* the uri *)
  userName : string;
  userMessage : string;
  onClosePress : M unit;
}.

Definition renderHeaderComponent (item : StoriesType) (onComplete : option callback)
  : ProfileHeader :=
  {| userImage := default "" (Item.profile item);
     userName := Item.username item;
     userMessage := Item.title item;
     onClosePress := call_opt onComplete (λ f, emit (CallOnComplete f)) |}.

(** ** MultiStoryContainer *)

(** [Metrics] of [../../theme], which is not among the sources: the two
    members the component reads. *)
Record Theme := { screenWidth : float; isIOS : bool }.

Module Layout.
Record t := { length : float; offset : float; index : Z }.
End Layout.

Module FlatList.
Record t (AnimatedStyle : Type) := {
  horizontal : bool;
  style : handle;
  pagingEnabled : bool;
  initialNumToRender : Z;
  data : list StoriesType;
  onScroll : handle;
  onScrollBeginDrag : M unit;
  onScrollEndDrag : M unit;
  scrollEventThrottle : Z;
  initialScrollIndex : Z;
  keyboardShouldPersistTaps : string;
  getItemLayout : Z → Layout.t;
  onLayout : M unit;
  onViewableItemsChanged : handle;
  viewabilityConfig : handle;
  decelerationRate : float;
  keyExtractor : StoriesType → string;
  contentContainerStyle : float;           (* its only member, width *)
  extraData : Z;
  renderItem : StoriesType → Z → option (ItemView AnimatedStyle);
    (* None: props of another type than the list item declares, see below *)
  itemRef : Z → option handle → M unit;    (* the ref callback of an item *)
}.
End FlatList.

Record PanGestureHandler (AnimatedStyle : Type) := {
  activateAfterLongPress : Z;
  onGestureEvent : handle;
  flatList : FlatList.t AnimatedStyle;
}.

Record GestureHandlerRootView (AnimatedStyle : Type) := {
  rootViewStyle : handle;
  pan : PanGestureHandler AnimatedStyle;
}.

Record Modal (AnimatedStyle : Type) := {
  modalVisible : bool;
  transparent : bool;
  onRequestClose : M unit;
  root : GestureHandlerRootView AnimatedStyle;
}.

(** Array writes [a[i] = v]: past the end the array grows, the gap left
    as holes; a negative [i] names a property, not an element. *)
Definition js_assign {A} (l : list (option A)) (i : Z) (v : option A)
  : list (option A) :=
  if i <? 0 then l
  else if bool_decide (Z.to_nat i < length l)%nat then <[Z.to_nat i := v]> l
  else l ++ replicate (Z.to_nat i - length l)%nat None ++ [v].

(** ** The props of a list item *)

(** [renderItem] writes [{...{item, index, nextStory, previousStory,
    storyIndex, onComplete, viewedStories, scrollX, isLoading}}] and then
    [{...props}]: where the rest object has a member of one of these names,
    that member is what the list item receives.  The list item declares
    [item] a story group, [index] and [storyIndex] numbers and [isLoading]
    a boolean; a member of another type lies outside its props type and
    outside this embedding, which then gives no view ([None]). *)
Definition asItem (v : value) : option StoriesType :=
  match v with VUserStories item => Some item | _ => None end.

Definition asNumber (v : value) : option Z :=
  match v with VNum n => Some n | _ => None end.

Definition asBoolean (v : value) : option bool :=
  match v with VBool b => Some b | _ => None end.

(** Values carry no shared value, so a [scrollX] of the caller's own is
    not followed either. *)
Definition asSharedValue (v : value) : option SharedValue := None.

Definition restProp {A} (decode : value → option A) (r : RestProps) (k : string)
    (own : A) : option A :=
  match forwarded r !! k with
  | Some v => decode v
  | None => Some own
  end.

(** The rest object a list item spreads over the attributes of its story.
    The item takes its nine names out of its props.  Seven are removed
    here; [onComplete] and [viewedStories] among them never were members,
    the container having taken them out before.  A [nextStory] or
    [previousStory] of the caller's replaces the container's closure in the
    item's props and reaches the story through the attribute
    [nextStory={nextStory}] or [previousStory={previousStory}], which
    [MultiStoryListItem] writes for the container's closures: the two keys
    are therefore kept in the object spread over those attributes, which
    gives the story the same props. *)
Definition itemRest (r : RestProps) : RestProps :=
  {| transitionMode := transitionMode r;
     renderIndicatorComponent := renderIndicatorComponent r;
     forwarded :=
       foldr delete (forwarded r)
         ["item"; "index"; "scrollX"; "storyIndex"; "onComplete";
          "viewedStories"; "isLoading"] |}.

Section MultiStoryContainer.
Context {AnimatedStyle : Type}.
Context (cubeTransition scaleTransition : Z → SharedValue → AnimatedStyle).
Context (defaultTransition : AnimatedStyle).
Context (Metrics : Theme).
Context (p : MultiStoryContainerProps) (h : HookResult).

(** The first effect: [itemsRef.current.slice(0, stories.length)]. *)
Definition sliceItemsRef : M unit :=
  λ w, (tt, set_itemsRef (take (length (stories p)) (itemsRef w)) w).

(** [itemsRef.current[storyIndex]]; holes and [null] entries read as
    nothing to call. *)
Definition activeItem (w : World) : option handle :=
  mjoin (js_index (itemsRef w) (storyIndex h)).

Definition onScrollBeginDrag : M unit :=
  w ← get; call_opt (activeItem w) ListItemRef.onScrollBegin.

Definition onScrollEndDrag : M unit :=
  w ← get; call_opt (activeItem w) ListItemRef.onScrollEnd.

Definition handleLongPress (visiblity : bool) : M unit :=
  w ← get;
  call_opt (activeItem w) (λ i, ListItemRef.handleLongPress i visiblity).

(** The second effect, [onUserStoryIndexChange?.(storyIndex)], and React's
    rule for running it: after the first render, and after every render
    whose dependency array differs from the one of the last run. *)
Definition indexEffect : M unit :=
  call_opt (onUserStoryIndexChange p)
    (λ f, emit (CallOnUserStoryIndexChange f (storyIndex h))).

Definition commitIndexEffect : M unit :=
  w ← get;
  let deps := (onUserStoryIndexChange p, storyIndex h) in
  if bool_decide (effectDeps w = Some deps) then skip
  else (λ w, (tt, set_effectDeps (Some deps) w)) ;; indexEffect.

Definition scrollToIndex (index : Z) (animated : bool) : M unit :=
  w ← get;
  call_opt (flatListRef w) (λ l, emit (ScrollToIndex l index animated)).

Definition nextStory : M unit :=
  if bool_decide (storyIndex h + 1 = Z.of_nat (length (stories p))) then
    call_opt (onComplete p) (λ f, emit (CallOnComplete f))
  else if bool_decide (storyIndex h >= Z.of_nat (length (stories p)) - 1) then
    skip
  else
    scrollToIndex (storyIndex h + 1) true.

Definition previousStory : M unit :=
  if bool_decide (storyIndex h = 0) then skip
  else scrollToIndex (storyIndex h - 1) true.

Definition getItemLayout (index : Z) : Layout.t :=
  {| Layout.length := screenWidth Metrics;
     Layout.offset := (screenWidth Metrics * number index)%float;
     Layout.index := index |}.

Definition contentContainerWidth : float :=
  (screenWidth Metrics * number (Z.of_nat (length (stories p))))%float.

Definition onLayout : M unit := λ w, (tt, set_isLoading true w).

Definition itemRef (index : Z) (elements : option handle) : M unit :=
  λ w, (tt, set_itemsRef (js_assign (itemsRef w) index elements) w).

(** [renderItem]: the list item for [{item, index}], with the props the
    container hands it and the rest object spread over them. *)
Definition renderItem (w : World) (item : StoriesType) (index : Z)
  : option (ItemView AnimatedStyle) :=
  item' ← restProp asItem (props p) "item" item;
  index' ← restProp asNumber (props p) "index" index;
  scrollX' ← restProp asSharedValue (props p) "scrollX" (scrollX h);
  storyIndex' ← restProp asNumber (props p) "storyIndex" (storyIndex h);
  isLoading' ← restProp asBoolean (props p) "isLoading" (isLoading w);
  Some (MultiStoryListItem cubeTransition scaleTransition defaultTransition
          item' index' scrollX' storyIndex' (onComplete p)
          (Some (default [] (viewedStories p))) isLoading'
          (itemRest (props p))).

(** One render, in the world it reads [isLoading] from; [None] is [null]. *)
Definition MultiStoryContainer (w : World) : option (Modal AnimatedStyle) :=
  if negb (visible p) then None
  else Some
    {| modalVisible := visible p;
       transparent := true;
       onRequestClose := call_opt (onComplete p) (λ f, emit (CallOnComplete f));
       root :=
         {| rootViewStyle := rootStyle h;
            pan :=
              {| activateAfterLongPress := 200;
                 onGestureEvent := gestureHandler h;
                 flatList :=
                   {| FlatList.horizontal := true;
                      FlatList.style := listStyle h;
                      FlatList.pagingEnabled := true;
                      FlatList.initialNumToRender := 2;
                      FlatList.data := stories p;
                      FlatList.onScroll := onScroll h;
                      FlatList.onScrollBeginDrag := onScrollBeginDrag;
                      FlatList.onScrollEndDrag := onScrollEndDrag;
                      FlatList.scrollEventThrottle := 16;
                      FlatList.initialScrollIndex := storyIndex h;
                      FlatList.keyboardShouldPersistTaps := "handled";
                      FlatList.getItemLayout := getItemLayout;
                      FlatList.onLayout := onLayout;
                      FlatList.onViewableItemsChanged := onViewRef h;
                      FlatList.viewabilityConfig := viewabilityConfig h;
                      FlatList.decelerationRate :=
                        if isIOS Metrics then 0.99%float else 0.92%float;
                      FlatList.keyExtractor :=
                        λ item, (Item.title item +:+ pretty (Item.id item))%string;
                      FlatList.contentContainerStyle := contentContainerWidth;
                      FlatList.extraData := storyIndex h;
                      FlatList.renderItem := renderItem w;
                      FlatList.itemRef := itemRef |} |} |} |}.
End MultiStoryContainer.

(** ** Observations and example data *)

Definition appended (l : list event) (w : World) : World :=
  set_log (log w ++ l) w.

(** What [flatListRef.current?.scrollToIndex(...)] sends: one request to
    the attached list, nothing while the ref is [null]. *)
Definition scroll_request (w : World) (index : Z) : list event :=
  match flatListRef w with
  | Some l => [ScrollToIndex l index true]
  | None => []
  end.

(** The concrete container used in the examples: two story groups, no
    forwarded props. *)
Definition noProps : RestProps :=
  {| transitionMode := None; renderIndicatorComponent := None; forwarded := ∅ |}.

Definition group (n : Z) : StoriesType :=
  {| Item.id := n; Item.username := "user"; Item.title := "title";
     Item.profile := None; Item.stories := [ {| story_id := 0 |} ] |}.

Definition twoGroups (onDone : option callback) : MultiStoryContainerProps :=
  {| stories := [group 1; group 2]; visible := true; onComplete := onDone;
     onUserStoryIndexChange := Some 7%nat; viewedStories := None;
     props := noProps |}.

Definition hookAt (i : Z) : HookResult :=
  {| storyIndex := i; scrollX := {| current := 0%Q |}; onViewRef := 0%nat;
     viewabilityConfig := 1%nat; gestureHandler := 2%nat; listStyle := 3%nat;
     rootStyle := 4%nat; onScroll := 5%nat |}.

Definition worldWith (list : option handle) : World :=
  {| log := []; flatListRef := list; itemsRef := []; storyRef := ∅;
     isLoading := false; effectDeps := None |}.

Definition worldWithItems : World :=
  {| log := []; flatListRef := Some 3%nat;
     itemsRef := [Some 10%nat; Some 11%nat];
     storyRef := {[ 10%nat := 20%nat; 11%nat := 21%nat ]};
     isLoading := true; effectDeps := None |}.

(** Transitions for the examples: a style is the name of its transition. *)
Definition demoCube (index : Z) (scrollX : SharedValue) : string := "cube".
Definition demoScale (index : Z) (scrollX : SharedValue) : string := "scale".
Definition demoDefault : string := "default".
Definition demoMetrics : Theme :=
  {| screenWidth := 411.42857142857144%float; isIOS := true |}.

Definition demoContainer (p : MultiStoryContainerProps) (h : HookResult) (w : World)
  : option (Modal string) :=
  MultiStoryContainer demoCube demoScale demoDefault demoMetrics p h w.

(** What [renderItem] gives for the entries of [data], in [data] order
    (entries the embedding does not follow are left out).  Which of these
    items are mounted at a time is the choice of the virtualised list. *)
Definition renderedChildren {AnimatedStyle : Type} (m : option (Modal AnimatedStyle))
  : list (ItemChild AnimatedStyle) :=
  match m with
  | None => []
  | Some m =>
      let l := flatList _ (pan _ (root _ m)) in
      omap id
        (imap (λ i item, child <$> FlatList.renderItem _ l item (Z.of_nat i))
              (FlatList.data _ l))
  end.

(** The handler props of the output: those built by the component, and
    those it passes on from the hook. *)
Definition wiredHandlers {AnimatedStyle : Type} (m : option (Modal AnimatedStyle))
  : list (M unit) * list handle :=
  match m with
  | None => ([], [])
  | Some m =>
      let g := pan _ (root _ m) in
      let l := flatList _ g in
      ([onRequestClose _ m; FlatList.onScrollBeginDrag _ l;
        FlatList.onScrollEndDrag _ l; FlatList.onLayout _ l],
       [onGestureEvent _ g; FlatList.onScroll _ l;
        FlatList.onViewableItemsChanged _ l])
  end.

Definition isStoryContainer {AnimatedStyle : Type} (c : ItemChild AnimatedStyle) : bool :=
  match c with
  | StoryContainer _ _ => true
  | _ => false
  end.

Definition propsWith (k : string) (v : value) : RestProps :=
  {| transitionMode := None; renderIndicatorComponent := None;
     forwarded := {[ k := v ]} |}.

Definition hidden : MultiStoryContainerProps :=
  {| stories := [group 1; group 2]; visible := false; onComplete := Some 9%nat;
     onUserStoryIndexChange := Some 7%nat; viewedStories := None;
     props := noProps |}.

(** Over a run of renders with one and the same callback, the callback
    hears every index that differs from the one rendered before it, the
    first included, and nothing else. *)
Fixpoint renders (rs : list (MultiStoryContainerProps * HookResult)) : M unit :=
  match rs with
  | [] => skip
  | r :: rs' => commitIndexEffect r.1 r.2 ;; renders rs'
  end.

Fixpoint changes (prev : option Z) (l : list Z) : list Z :=
  match l with
  | [] => []
  | i :: l' =>
      if bool_decide (prev = Some i) then changes prev l'
      else i :: changes (Some i) l'
  end.

(** A container without story groups, and one whose caller passes nothing
    but the groups. *)
Definition noGroups : MultiStoryContainerProps :=
  {| stories := []; visible := true; onComplete := Some 9%nat;
     onUserStoryIndexChange := Some 7%nat; viewedStories := None;
     props := noProps |}.

(** A registry that still holds handles of five items. *)
Definition worldWithMany : World :=
  {| log := []; flatListRef := Some 3%nat;
     itemsRef := [Some 10%nat; Some 11%nat; Some 12%nat; None; Some 14%nat];
     storyRef := {[ 10%nat := 20%nat; 12%nat := 22%nat ]};
     isLoading := true; effectDeps := None |}.

(** A caller that passes props of the names the container hands to its
    list items. *)
Definition overridden : MultiStoryContainerProps :=
  {| stories := [group 1]; visible := true; onComplete := None;
     onUserStoryIndexChange := None; viewedStories := None;
     props := {| transitionMode := None; renderIndicatorComponent := None;
                 forwarded := {[ "index" := VNum 5; "storyIndex" := VNum 5 ]} |} |}.

(** * Properties *)

(** ** The handler monad *)

Lemma appended_nil w : appended [] w = w.
Proof. destruct w. unfold appended, set_log. simpl. by rewrite app_nil_r. Qed.

Lemma exec_skip w : exec skip w = appended [] w.
Proof. by rewrite appended_nil. Qed.

Lemma exec_emit e w : exec (emit e) w = appended [e] w.
Proof. reflexivity. Qed.

Lemma issued_appended m l w : exec m w = appended l w → issued m w = l.
Proof. unfold issued. intros ->. simpl. apply drop_app_length. Qed.

Lemma exec_get (k : World → M unit) w : exec (w' ← get; k w') w = exec (k w) w.
Proof. reflexivity. Qed.

Lemma exec_call_opt {A} (o : option A) (k : A → M unit) w :
  exec (call_opt o k) w = match o with Some a => exec (k a) w | None => w end.
Proof. by destruct o. Qed.

Lemma exec_scrollToIndex index w :
  exec (scrollToIndex index true) w = appended (scroll_request w index) w.
Proof.
  unfold scrollToIndex, scroll_request. rewrite exec_get, exec_call_opt.
  destruct (flatListRef w); [done | by rewrite appended_nil].
Qed.

(** ** C1: nextStory *)

Section NextStory.
Context (p : MultiStoryContainerProps) (h : HookResult).

Lemma exec_nextStory_last w :
  storyIndex h + 1 = Z.of_nat (length (stories p)) →
  exec (nextStory p h) w =
    appended (match onComplete p with Some f => [CallOnComplete f] | None => [] end) w.
Proof.
  intros Hlast. unfold nextStory. rewrite bool_decide_eq_true_2 by done.
  rewrite exec_call_opt. destruct (onComplete p); [done | by rewrite appended_nil].
Qed.

Lemma exec_nextStory_inner w :
  storyIndex h + 1 < Z.of_nat (length (stories p)) →
  exec (nextStory p h) w = appended (scroll_request w (storyIndex h + 1)) w.
Proof.
  intros Hlt. unfold nextStory.
  rewrite bool_decide_eq_false_2 by lia.
  rewrite bool_decide_eq_false_2 by lia.
  apply exec_scrollToIndex.
Qed.

(** Past the last group the second guard returns early. *)
Lemma exec_nextStory_beyond w :
  storyIndex h + 1 > Z.of_nat (length (stories p)) →
  exec (nextStory p h) w = w.
Proof.
  intros Hgt. unfold nextStory.
  rewrite bool_decide_eq_false_2 by lia.
  rewrite bool_decide_eq_true_2 by lia. done.
Qed.
End NextStory.

(** C1, as stated, fails while no list is attached to [flatListRef]: on the
    first of two groups [nextStory] issues no [scrollToIndex] at all. *)
Lemma nextStory_without_list_counterexample :
  storyIndex (hookAt 0) + 1 < Z.of_nat (length (stories (twoGroups (Some 9%nat)))) ∧
  issued (nextStory (twoGroups (Some 9%nat)) (hookAt 0)) (worldWith None) = [] ∧
  ¬ ∃ l, issued (nextStory (twoGroups (Some 9%nat)) (hookAt 0)) (worldWith None)
         = [ScrollToIndex l (storyIndex (hookAt 0) + 1) true].
Proof.
  split; [simpl; lia |]. split; [reflexivity |].
  intros [l Hl]. vm_compute in Hl. discriminate.
Qed.

(** C1 (amended): on the last group ([storyIndex + 1 = stories.length])
    [nextStory] invokes [onComplete], when the caller provided one, and issues
    no scroll request; before the last group ([storyIndex + 1 <
    stories.length]) it does not invoke [onComplete] and, when a list is
    attached to [flatListRef], issues exactly one animated [scrollToIndex]
    to [storyIndex + 1]; with no list attached it issues nothing. *)
Theorem nextStory_spec (p : MultiStoryContainerProps) (h : HookResult) (w : World) :
  (storyIndex h + 1 = Z.of_nat (length (stories p)) →
     issued (nextStory p h) w =
       match onComplete p with Some f => [CallOnComplete f] | None => [] end) ∧
  (storyIndex h + 1 < Z.of_nat (length (stories p)) →
     issued (nextStory p h) w =
       match flatListRef w with
       | Some l => [ScrollToIndex l (storyIndex h + 1) true]
       | None => []
       end).
Proof.
  split; intros Hi; apply issued_appended.
  - by apply exec_nextStory_last.
  - by apply exec_nextStory_inner.
Qed.

Lemma nextStory_spec_witness :
  issued (nextStory (twoGroups (Some 9%nat)) (hookAt 1)) (worldWith (Some 3%nat))
    = [CallOnComplete 9%nat] ∧
  issued (nextStory (twoGroups (Some 9%nat)) (hookAt 0)) (worldWith (Some 3%nat))
    = [ScrollToIndex 3%nat 1 true].
Proof.
  split.
  - apply (proj1 (nextStory_spec (twoGroups (Some 9%nat)) (hookAt 1)
                    (worldWith (Some 3%nat)))). reflexivity.
  - apply (proj2 (nextStory_spec (twoGroups (Some 9%nat)) (hookAt 0)
                    (worldWith (Some 3%nat)))). simpl. lia.
Defined.

(** ** C2: previousStory *)

Section PreviousStory.
Context (h : HookResult).

Lemma exec_previousStory_first w :
  storyIndex h = 0 → exec (previousStory h) w = w.
Proof. intros Hz. unfold previousStory. by rewrite bool_decide_eq_true_2. Qed.

Lemma exec_previousStory_other w :
  storyIndex h ≠ 0 →
  exec (previousStory h) w = appended (scroll_request w (storyIndex h - 1)) w.
Proof.
  intros Hnz. unfold previousStory. rewrite bool_decide_eq_false_2 by done.
  apply exec_scrollToIndex.
Qed.
End PreviousStory.

(** Only the log differs between a world and the same world with requests
    appended. *)
Lemma appended_frame l w :
  flatListRef (appended l w) = flatListRef w ∧
  itemsRef (appended l w) = itemsRef w ∧
  storyRef (appended l w) = storyRef w ∧
  isLoading (appended l w) = isLoading w ∧
  effectDeps (appended l w) = effectDeps w ∧
  log (appended l w) = log w ++ l.
Proof. by repeat split. Qed.

(** C2, as stated, fails while no list is attached to [flatListRef]: on the
    second group [previousStory] issues no [scrollToIndex], and the world
    is left as it was. *)
Lemma previousStory_without_list_counterexample :
  storyIndex (hookAt 1) > 0 ∧
  exec (previousStory (hookAt 1)) (worldWith None) = worldWith None ∧
  ¬ ∃ l, issued (previousStory (hookAt 1)) (worldWith None)
         = [ScrollToIndex l (storyIndex (hookAt 1) - 1) true].
Proof.
  split; [simpl; lia |]. split; [reflexivity |].
  intros [l Hl]. vm_compute in Hl. discriminate.
Qed.

(** C2 (amended): with [storyIndex = 0], [previousStory] changes nothing: the
    world, its log of requests and callbacks included, is the one it started
    from.  With [storyIndex > 0] and a list attached to [flatListRef] it
    appends exactly one animated [scrollToIndex] to [storyIndex - 1] to the
    log and leaves every other part of the state as it was; with no list
    attached it changes nothing. *)
Theorem previousStory_spec (h : HookResult) (w : World) :
  (storyIndex h = 0 → exec (previousStory h) w = w) ∧
  (storyIndex h > 0 →
     let sent := match flatListRef w with
                 | Some l => [ScrollToIndex l (storyIndex h - 1) true]
                 | None => []
                 end in
     let w' := exec (previousStory h) w in
     issued (previousStory h) w = sent ∧
     log w' = log w ++ sent ∧
     flatListRef w' = flatListRef w ∧
     itemsRef w' = itemsRef w ∧
     storyRef w' = storyRef w ∧
     isLoading w' = isLoading w ∧
     effectDeps w' = effectDeps w).
Proof.
  split.
  - apply exec_previousStory_first.
  - intros Hpos. simpl.
    assert (Hex := exec_previousStory_other h w ltac:(lia)).
    split; [by apply issued_appended |].
    rewrite Hex. by repeat split.
Qed.

Lemma previousStory_spec_witness :
  exec (previousStory (hookAt 0)) (worldWith (Some 3%nat)) = worldWith (Some 3%nat) ∧
  issued (previousStory (hookAt 1)) (worldWith (Some 3%nat))
    = [ScrollToIndex 3%nat 0 true].
Proof.
  split.
  - apply (proj1 (previousStory_spec (hookAt 0) (worldWith (Some 3%nat)))).
    reflexivity.
  - apply (proj2 (previousStory_spec (hookAt 1) (worldWith (Some 3%nat)))).
    simpl. lia.
Defined.

(** ** C3: imperative commands reach the active item's story *)

Section ImperativeHandle.
Context (w : World) (self story : handle).
Hypothesis Hmounted : storyRef w !! self = Some story.

Lemma exec_item_onScrollBegin :
  exec (ListItemRef.onScrollBegin self) w = appended [Pause story true] w.
Proof. unfold ListItemRef.onScrollBegin. by rewrite exec_get, Hmounted. Qed.

Lemma exec_item_onScrollEnd :
  exec (ListItemRef.onScrollEnd self) w = appended [Pause story false] w.
Proof. unfold ListItemRef.onScrollEnd. by rewrite exec_get, Hmounted. Qed.

Lemma exec_item_handleLongPress v :
  exec (ListItemRef.handleLongPress self v) w = appended [HandleLongPress story v] w.
Proof. unfold ListItemRef.handleLongPress. by rewrite exec_get, Hmounted. Qed.
End ImperativeHandle.

(** An item that mounts no story drops the command. *)
Lemma exec_item_unmounted w self v :
  storyRef w !! self = None →
  exec (ListItemRef.onScrollBegin self) w = w ∧
  exec (ListItemRef.onScrollEnd self) w = w ∧
  exec (ListItemRef.handleLongPress self v) w = w.
Proof.
  intros Hnone.
  unfold ListItemRef.onScrollBegin, ListItemRef.onScrollEnd,
    ListItemRef.handleLongPress.
  by rewrite !exec_get, Hnone.
Qed.

(** The ref callback puts an item's handle at the item's index. *)
Lemma js_index_assign {A} (l : list (option A)) (i : Z) (v : option A) :
  0 ≤ i → js_index (js_assign l i v) i = Some v.
Proof.
  intros Hi. unfold js_index, js_assign.
  destruct (Z.ltb_spec i 0) as [|_]; [lia |].
  case_bool_decide as Hlt.
  - by apply list_lookup_insert_eq.
  - rewrite lookup_app_r by lia.
    rewrite lookup_app_r by (rewrite length_replicate; lia).
    rewrite length_replicate.
    by replace (Z.to_nat i - length l - (Z.to_nat i - length l))%nat with 0%nat by lia.
Qed.

Lemma activeItem_after_itemRef h w item :
  0 ≤ storyIndex h →
  activeItem h (exec (itemRef (storyIndex h) (Some item)) w) = Some item.
Proof.
  intros Hi. unfold activeItem, itemRef, exec. simpl.
  by rewrite js_index_assign.
Qed.

(** C3: the handle a list item publishes forwards [onScrollBegin] to
    [pause(true)], [onScrollEnd] to [pause(false)] and [handleLongPress(v)] to
    [handleLongPress(v)] of the story mounted in that item, and the
    container's own [onScrollBeginDrag], [onScrollEndDrag] and
    [handleLongPress(v)] reach, through the handle registered at
    [itemsRef.current[storyIndex]], the story of the currently active item
    with the same arguments. *)
Theorem imperative_commands_forwarded (h : HookResult) (w : World)
    (item story : handle) :
  js_index (itemsRef w) (storyIndex h) = Some (Some item) →
  storyRef w !! item = Some story →
  (issued (ListItemRef.onScrollBegin item) w = [Pause story true] ∧
   issued (ListItemRef.onScrollEnd item) w = [Pause story false] ∧
   ∀ v, issued (ListItemRef.handleLongPress item v) w = [HandleLongPress story v]) ∧
  (issued (onScrollBeginDrag h) w = [Pause story true] ∧
   issued (onScrollEndDrag h) w = [Pause story false] ∧
   ∀ v, issued (handleLongPress h v) w = [HandleLongPress story v]).
Proof.
  intros Hitem Hstory.
  assert (Hactive : activeItem h w = Some item) by (unfold activeItem; by rewrite Hitem).
  split; repeat split; try intros v; apply issued_appended.
  - by apply exec_item_onScrollBegin.
  - by apply exec_item_onScrollEnd.
  - by apply exec_item_handleLongPress.
  - unfold onScrollBeginDrag. rewrite exec_get, Hactive. by apply exec_item_onScrollBegin.
  - unfold onScrollEndDrag. rewrite exec_get, Hactive. by apply exec_item_onScrollEnd.
  - unfold handleLongPress. rewrite exec_get, Hactive. by apply exec_item_handleLongPress.
Qed.

Lemma imperative_commands_forwarded_witness :
  issued (onScrollBeginDrag (hookAt 1)) worldWithItems = [Pause 21%nat true] ∧
  issued (onScrollEndDrag (hookAt 1)) worldWithItems = [Pause 21%nat false] ∧
  issued (handleLongPress (hookAt 1) false) worldWithItems
    = [HandleLongPress 21%nat false].
Proof.
  destruct (imperative_commands_forwarded (hookAt 1) worldWithItems 11%nat 21%nat)
    as [_ (Hb & He & Hl)]; [reflexivity | reflexivity |].
  exact (conj Hb (conj He (Hl false))).
Defined.

(** ** C4: which list items mount story content *)

Section ListItemChild.
Context {AnimatedStyle : Type}.
Context (cubeTransition scaleTransition : Z → SharedValue → AnimatedStyle).
Context (defaultTransition : AnimatedStyle).
Context (item : StoriesType) (index : Z) (scrollX : SharedValue).
Context (storyIndex : Z) (onComplete : option callback).
Context (viewedStories : option (list (list bool))) (isLoading : bool).
Context (props : RestProps).

Local Abbreviation view :=
  (MultiStoryListItem cubeTransition scaleTransition defaultTransition item index
     scrollX storyIndex onComplete viewedStories isLoading props).

Lemma child_story :
  storyIndex = index ∨ isLoading = true →
  child view =
    StoryContainer
      (animationStyle cubeTransition scaleTransition defaultTransition index scrollX props)
      (storyContainerProps item index storyIndex onComplete viewedStories props).
Proof.
  intros Hcond. unfold MultiStoryListItem. simpl.
  destruct Hcond as [-> | ->].
  - by rewrite bool_decide_eq_true_2.
  - by rewrite orb_true_r.
Qed.

Lemma child_indicator :
  storyIndex ≠ index → isLoading = false → child view = indicator props.
Proof.
  intros Hne ->. unfold MultiStoryListItem. simpl.
  by rewrite bool_decide_eq_false_2.
Qed.

Lemma child_story_inv st sp :
  child view = StoryContainer st sp →
  (storyIndex = index ∨ isLoading = true) ∧
  st = animationStyle cubeTransition scaleTransition defaultTransition index scrollX props ∧
  sp = storyContainerProps item index storyIndex onComplete viewedStories props.
Proof.
  unfold MultiStoryListItem. simpl.
  case_bool_decide as Hi; simpl.
  - intros [= <- <-]. auto.
  - destruct isLoading; simpl.
    + intros [= <- <-]. auto.
    + unfold indicator. destruct (renderIndicatorComponent props) as [[? [?|]]|]; discriminate.
Qed.
End ListItemChild.

(** The placeholder is the caller's node when [renderIndicatorComponent] is
    given and returns one, the default [Indicator] otherwise. *)
Lemma indicator_cases {AnimatedStyle : Type} (props : RestProps) :
  (∀ f n, renderIndicatorComponent props = Some (f, Some n) →
          indicator (AnimatedStyle := AnimatedStyle) props = CallerIndicator n) ∧
  (∀ f, renderIndicatorComponent props = Some (f, None) →
        indicator (AnimatedStyle := AnimatedStyle) props = Indicator) ∧
  (renderIndicatorComponent props = None →
   indicator (AnimatedStyle := AnimatedStyle) props = Indicator).
Proof.
  unfold indicator. split_and!.
  - by intros f n ->.
  - by intros f ->.
  - by intros ->.
Qed.

(** [isLoading] starts false, the list's [onLayout] sets it, and no handler
    of the component clears it again. *)
Lemma isLoading_after_onLayout w : isLoading (exec onLayout w) = true.
Proof. reflexivity. Qed.

Lemma isLoading_call_opt {A} (o : option A) (k : A → M unit) w :
  (∀ a w, isLoading (exec (k a) w) = isLoading w) →
  isLoading (exec (call_opt o k) w) = isLoading w.
Proof. intros Hk. rewrite exec_call_opt. destruct o; [apply Hk | done]. Qed.

Lemma isLoading_item_handle w self v :
  isLoading (exec (ListItemRef.onScrollBegin self) w) = isLoading w ∧
  isLoading (exec (ListItemRef.onScrollEnd self) w) = isLoading w ∧
  isLoading (exec (ListItemRef.handleLongPress self v) w) = isLoading w.
Proof.
  unfold ListItemRef.onScrollBegin, ListItemRef.onScrollEnd,
    ListItemRef.handleLongPress.
  rewrite !exec_get. repeat split; by apply isLoading_call_opt.
Qed.

Lemma isLoading_kept (p : MultiStoryContainerProps) (h : HookResult) (w : World) :
  isLoading (exec (nextStory p h) w) = isLoading w ∧
  isLoading (exec (previousStory h) w) = isLoading w ∧
  isLoading (exec (onScrollBeginDrag h) w) = isLoading w ∧
  isLoading (exec (onScrollEndDrag h) w) = isLoading w ∧
  (∀ v, isLoading (exec (handleLongPress h v) w) = isLoading w) ∧
  isLoading (exec (sliceItemsRef p) w) = isLoading w ∧
  (∀ i e, isLoading (exec (itemRef i e) w) = isLoading w) ∧
  isLoading (exec (commitIndexEffect p h) w) = isLoading w.
Proof.
  repeat split.
  - unfold nextStory, scrollToIndex. repeat case_bool_decide; try done;
      rewrite ?exec_get; by apply isLoading_call_opt.
  - unfold previousStory, scrollToIndex. case_bool_decide; try done.
    rewrite exec_get. by apply isLoading_call_opt.
  - unfold onScrollBeginDrag. rewrite exec_get. apply isLoading_call_opt.
    intros a w'. apply (isLoading_item_handle w' a true).
  - unfold onScrollEndDrag. rewrite exec_get. apply isLoading_call_opt.
    intros a w'. apply (isLoading_item_handle w' a true).
  - intros v. unfold handleLongPress. rewrite exec_get. apply isLoading_call_opt.
    intros a w'. apply (isLoading_item_handle w' a v).
  - unfold commitIndexEffect. rewrite exec_get. case_bool_decide; [done |].
    unfold indexEffect. destruct (onUserStoryIndexChange p); done.
Qed.

(** C4, as stated, fails once the list has been laid out: [onLayout] sets
    [isLoading], and from then on the item at index 1 mounts a
    [StoryContainer] although the current [storyIndex] is 0. *)
Lemma story_content_off_index_counterexample :
  storyIndex (hookAt 0) ≠ 1 ∧
  isStoryContainer <$>
    renderedChildren (demoContainer (twoGroups None) (hookAt 0)
                        (exec onLayout (worldWith (Some 3%nat))))
  = [true; true].
Proof. split; [discriminate | reflexivity]. Qed.

(** C4 (amended): a list item mounts the story-group content (a
    [StoryContainer]) exactly when its index equals the current [storyIndex]
    or [isLoading] is set; an item at another index renders the indicator
    placeholder (the node returned by the caller's
    [renderIndicatorComponent], or the default [Indicator]) only while
    [isLoading] is still false; and the list's [onLayout] sets
    [isLoading]. *)
Theorem story_content_rendered_iff {AnimatedStyle : Type}
    (cubeTransition scaleTransition : Z → SharedValue → AnimatedStyle)
    (defaultTransition : AnimatedStyle)
    (item : StoriesType) (index : Z) (scrollX : SharedValue) (storyIndex : Z)
    (onComplete : option callback) (viewedStories : option (list (list bool)))
    (loading : bool) (props : RestProps) :
  let view := MultiStoryListItem cubeTransition scaleTransition defaultTransition
                item index scrollX storyIndex onComplete viewedStories loading props in
  (isStoryContainer (child view) = true ↔ storyIndex = index ∨ loading = true) ∧
  (storyIndex ≠ index → loading = false →
     child view = match renderIndicatorComponent props with
                  | Some (_, Some n) => CallerIndicator n
                  | _ => Indicator
                  end) ∧
  (∀ w, isLoading (exec onLayout w) = true).
Proof.
  intros view. split_and!; [split | |].
  - destruct (child view) eqn:Hc; try discriminate.
    intros _. subst view. by apply child_story_inv in Hc as [? _].
  - intros Hcond. subst view. by rewrite child_story.
  - intros Hne Hl. subst view. by rewrite child_indicator.
  - apply isLoading_after_onLayout.
Qed.

Lemma story_content_rendered_iff_witness :
  child (MultiStoryListItem demoCube demoScale demoDefault (group 2) 1
           {| current := 0%Q |} 0 None (Some []) false noProps)
  = Indicator.
Proof.
  apply (proj1 (proj2 (story_content_rendered_iff demoCube demoScale demoDefault
                         (group 2) 1 {| current := 0%Q |} 0 None (Some []) false
                         noProps)));
    [discriminate | reflexivity].
Defined.

(** Before the first layout only the active item mounts a story; after it
    every rendered item does. *)
Lemma renderedChildren_before_layout :
  isStoryContainer <$>
    renderedChildren (demoContainer (twoGroups None) (hookAt 0) (worldWith (Some 3%nat)))
  = [true; false].
Proof. reflexivity. Qed.

(** ** C5: the initial progress index *)

Lemma findIndex_found {A} (f : A → bool) (l : list A) (i : nat) (x : A) :
  l !! i = Some x → f x = true →
  (∀ j y, l !! j = Some y → (j < i)%nat → f y = false) →
  findIndex f l = Z.of_nat i.
Proof.
  intros Hx Hf Hleast. unfold findIndex.
  assert (list_find (λ x, f x = true) l = Some (i, x)) as ->; [| done].
  apply list_find_Some. split_and!; [done .. |].
  intros j y Hy Hj. rewrite (Hleast j y) by done. discriminate.
Qed.

Lemma findIndex_none {A} (f : A → bool) (l : list A) :
  Forall (λ x, f x = false) l → findIndex f l = -1.
Proof.
  intros Hall. unfold findIndex.
  assert (list_find (λ x, f x = true) l = None) as ->; [| done].
  apply list_find_None. eapply Forall_impl; [done |].
  simpl. intros x ->. discriminate.
Qed.

Lemma findIndex_range {A} (f : A → bool) (l : list A) :
  -1 ≤ findIndex f l < Z.of_nat (length l).
Proof.
  unfold findIndex. destruct (list_find _ l) as [[i x]|] eqn:Hfind; [| lia].
  apply list_find_Some in Hfind as (Hx%lookup_lt_Some & _). lia.
Qed.

Lemma rest_object_forwarded (r : RestProps) (k : string) :
  k ≠ "transitionMode" → k ≠ "renderIndicatorComponent" →
  rest_object r !! k = forwarded r !! k.
Proof.
  intros Ht Hr. unfold rest_object.
  destruct (transitionMode r), (renderIndicatorComponent r) as [[? ?]|];
    by rewrite ?lookup_insert_ne.
Qed.

Section StoryContainerProps.
Context (item : StoriesType) (index storyIndex : Z) (onComplete : option callback).
Context (viewedStories : option (list (list bool))) (props : RestProps).

Local Abbreviation storyProps :=
  (storyContainerProps item index storyIndex onComplete viewedStories props).

(** A prop written before the spread reaches the child unless the spread
    object has the same key. *)
Lemma storyProps_literal (k : string) :
  k ≠ "userStoryIndex" → k ≠ "index" →
  k ≠ "transitionMode" → k ≠ "renderIndicatorComponent" →
  forwarded props !! k = None →
  storyProps !! k = literalProps item index onComplete viewedStories !! k.
Proof.
  intros Hu Hi Ht Hr Hk. unfold storyContainerProps, js_spread.
  rewrite !lookup_insert_ne by done.
  apply lookup_union_r. by rewrite rest_object_forwarded.
Qed.

(** A key of the spread object replaces the one written before it. *)
Lemma storyProps_override (k : string) (v : value) :
  k ≠ "userStoryIndex" → k ≠ "index" →
  k ≠ "transitionMode" → k ≠ "renderIndicatorComponent" →
  forwarded props !! k = Some v →
  storyProps !! k = Some v.
Proof.
  intros Hu Hi Ht Hr Hk. unfold storyContainerProps, js_spread.
  rewrite !lookup_insert_ne by done.
  apply lookup_union_Some_l. by rewrite rest_object_forwarded.
Qed.

(** [index] and [userStoryIndex] follow the spread and are never replaced. *)
Lemma storyProps_index :
  storyProps !! "index" = Some (VNum index) ∧
  storyProps !! "userStoryIndex" = Some (VNum storyIndex).
Proof.
  unfold storyContainerProps. split.
  - rewrite lookup_insert_ne by done. apply lookup_insert_eq.
  - apply lookup_insert_eq.
Qed.
End StoryContainerProps.

Lemma literalProps_lookup item index onComplete viewedStories :
  literalProps item index onComplete viewedStories !! "progressIndex"
    = Some (progressIndex index viewedStories) ∧
  literalProps item index onComplete viewedStories !! "maxVideoDuration"
    = Some (VNum 15).
Proof.
  unfold literalProps. split.
  - rewrite !(lookup_insert_ne _ _ "progressIndex") by done. apply lookup_insert_eq.
  - rewrite !(lookup_insert_ne _ _ "maxVideoDuration") by done. apply lookup_insert_eq.
Qed.

Lemma storyInitialIndex_present index (vs : list (list bool)) arr :
  js_index vs index = Some arr →
  storyInitialIndex index (Some vs) = Some (findIndex negb arr).
Proof. intros Harr. unfold storyInitialIndex. simpl. by rewrite Harr. Qed.

(** Without a [viewedStories] entry for the item the index is [undefined],
    and so is the prop: [undefined < 0] is false. *)
Lemma progressIndex_absent index (vs : list (list bool)) :
  js_index vs index = None →
  progressIndex index (Some vs) = VUndefined ∧ progressIndex index None = VUndefined.
Proof. intros Hnone. unfold progressIndex, storyInitialIndex. simpl. by rewrite Hnone. Qed.

(** C5, as stated, fails when the forwarded props carry a [progressIndex] of
    their own: the spread follows the attribute and replaces it.  Here the
    first unviewed slide of the item is at position 1, and the child
    receives 7. *)
Lemma progressIndex_override_counterexample :
  js_index [[true; false; false]] 0 = Some [true; false; false] ∧
  findIndex negb [true; false; false] = 1 ∧
  storyContainerProps (group 1) 0 0 None (Some [[true; false; false]])
    (propsWith "progressIndex" (VNum 7)) !! "progressIndex" = Some (VNum 7).
Proof.
  split; [reflexivity |]. split; [reflexivity |].
  apply storyProps_override; try done.
Qed.

(** C5 (amended): unless the forwarded props themselves supply a
    [progressIndex], for every list item whose [viewedStories[index]] array
    is present the [progressIndex] passed to the item's [StoryContainer] is a
    non-negative number: the position of the first [false] entry of
    [viewedStories[index]], and 0 when every entry is [true]. *)
Theorem progressIndex_first_unviewed (item : StoriesType) (index storyIndex : Z)
    (onComplete : option callback) (vs : list (list bool)) (arr : list bool)
    (props : RestProps) :
  js_index vs index = Some arr →
  forwarded props !! "progressIndex" = None →
  ∃ n : Z,
    storyContainerProps item index storyIndex onComplete (Some vs) props
      !! "progressIndex" = Some (VNum n) ∧
    0 ≤ n ∧
    (∀ i : nat, arr !! i = Some false →
                (∀ j : nat, (j < i)%nat → arr !! j = Some true) →
                n = Z.of_nat i) ∧
    (Forall (λ b, b = true) arr → n = 0).
Proof.
  intros Harr Hprops.
  assert (Hlook : storyContainerProps item index storyIndex onComplete (Some vs) props
                    !! "progressIndex" = Some (progressIndex index (Some vs))).
  { rewrite storyProps_literal by done. apply literalProps_lookup. }
  unfold progressIndex in Hlook. rewrite (storyInitialIndex_present _ _ _ Harr) in Hlook.
  destruct (Z.ltb_spec (findIndex negb arr) 0) as [Hneg | Hpos].
  - exists 0. split_and!; [done | lia | | done].
    intros i Hi Hbefore. exfalso.
    assert (findIndex negb arr = Z.of_nat i); [| lia].
    apply (findIndex_found _ _ _ false); [done .. |].
    intros j y Hy Hj. rewrite (Hbefore j Hj) in Hy. by simplify_eq.
  - exists (findIndex negb arr). split_and!; [done | lia | |].
    + intros i Hi Hbefore. apply (findIndex_found _ _ _ false); [done .. |].
      intros j y Hy Hj. rewrite (Hbefore j Hj) in Hy. by simplify_eq.
    + intros Hall. rewrite findIndex_none in Hpos; [lia |].
      eapply Forall_impl; [done |]. by intros ? ->.
Qed.

Lemma progressIndex_first_unviewed_witness :
  ∃ n : Z,
    storyContainerProps (group 1) 0 0 None (Some [[true; false; false]]) noProps
      !! "progressIndex" = Some (VNum n) ∧
    0 ≤ n ∧
    (∀ i : nat, [true; false; false] !! i = Some false →
                (∀ j : nat, (j < i)%nat → [true; false; false] !! j = Some true) →
                n = Z.of_nat i) ∧
    (Forall (λ b, b = true) [true; false; false] → n = 0).
Proof.
  apply (progressIndex_first_unviewed (group 1) 0 0 None [[true; false; false]]
           [true; false; false] noProps); reflexivity.
Defined.

(** ** C10: the fixed video-duration limit *)

(** C10: unless the forwarded props themselves supply a [maxVideoDuration],
    the [StoryContainer] a list item mounts receives [maxVideoDuration] 15. *)
Theorem maxVideoDuration_fixed {AnimatedStyle : Type}
    (cubeTransition scaleTransition : Z → SharedValue → AnimatedStyle)
    (defaultTransition : AnimatedStyle)
    (item : StoriesType) (index : Z) (scrollX : SharedValue) (storyIndex : Z)
    (onComplete : option callback) (viewedStories : option (list (list bool)))
    (isLoading : bool) (props : RestProps)
    (animatedStyle : AnimatedStyle) (storyProps : gmap string value) :
  forwarded props !! "maxVideoDuration" = None →
  child (MultiStoryListItem cubeTransition scaleTransition defaultTransition item
           index scrollX storyIndex onComplete viewedStories isLoading props)
    = StoryContainer animatedStyle storyProps →
  storyProps !! "maxVideoDuration" = Some (VNum 15).
Proof.
  intros Hprops (_ & _ & ->)%child_story_inv.
  rewrite storyProps_literal by done. apply literalProps_lookup.
Qed.

Lemma maxVideoDuration_fixed_witness :
  storyContainerProps (group 1) 0 0 (Some 9%nat) (Some []) noProps
    !! "maxVideoDuration" = Some (VNum 15).
Proof.
  apply (maxVideoDuration_fixed demoCube demoScale demoDefault (group 1) 0
           {| current := 0%Q |} 0 (Some 9%nat) (Some []) false noProps
           demoDefault); reflexivity.
Defined.

(** The props spread follows the literal: a forwarded [maxVideoDuration]
    replaces the 15. *)
Lemma maxVideoDuration_overridden item index storyIndex onComplete viewedStories props v :
  forwarded props !! "maxVideoDuration" = Some v →
  storyContainerProps item index storyIndex onComplete viewedStories props
    !! "maxVideoDuration" = Some v.
Proof. intros Hv. by apply storyProps_override. Qed.

(** ** C6: the transition style *)

(** C6: the animated style of a list item is selected by its
    [transitionMode] prop alone: [cubeTransition(index, scrollX)] for
    [Cube], [scaleTransition(index, scrollX)] for [Scale], and
    [defaultTransition()] for every other mode and when none is given; two
    items that agree on the mode, the index and [scrollX] get the same style
    whatever their other props are. *)
Theorem animationStyle_by_transitionMode {AnimatedStyle : Type}
    (cubeTransition scaleTransition : Z → SharedValue → AnimatedStyle)
    (defaultTransition : AnimatedStyle) (index : Z) (scrollX : SharedValue) :
  let style := animationStyle cubeTransition scaleTransition defaultTransition
                 index scrollX in
  (∀ props, transitionMode props = Some Cube →
            style props = cubeTransition index scrollX) ∧
  (∀ props, transitionMode props = Some Scale →
            style props = scaleTransition index scrollX) ∧
  (∀ props, transitionMode props ≠ Some Cube → transitionMode props ≠ Some Scale →
            style props = defaultTransition) ∧
  (∀ props, transitionMode props = None → style props = defaultTransition) ∧
  (∀ props props', transitionMode props = transitionMode props' →
                   style props = style props').
Proof.
  simpl. unfold animationStyle. split_and!.
  - by intros props ->.
  - by intros props ->.
  - intros props Hc Hs. by destruct (transitionMode props) as [[]|].
  - by intros props ->.
  - by intros props props' ->.
Qed.

Lemma animationStyle_by_transitionMode_witness :
  animationStyle demoCube demoScale demoDefault 1 {| current := 0%Q |}
    {| transitionMode := Some Default; renderIndicatorComponent := None;
       forwarded := ∅ |} = "default".
Proof.
  apply (proj1 (proj2 (proj2 (animationStyle_by_transitionMode demoCube demoScale
                                demoDefault 1 {| current := 0%Q |}))));
    discriminate.
Defined.

(** The style goes to the [Animated.View] that wraps the story. *)
Lemma animationStyle_mounted {AnimatedStyle : Type}
    (cubeTransition scaleTransition : Z → SharedValue → AnimatedStyle)
    (defaultTransition : AnimatedStyle) item index scrollX storyIndex onComplete
    viewedStories isLoading props st sp :
  child (MultiStoryListItem cubeTransition scaleTransition defaultTransition item
           index scrollX storyIndex onComplete viewedStories isLoading props)
    = StoryContainer st sp →
  st = animationStyle cubeTransition scaleTransition defaultTransition index scrollX props.
Proof. by intros (_ & -> & _)%child_story_inv. Qed.

(** ** C8: an invisible container renders nothing *)

Section Render.
Context {AnimatedStyle : Type}.
Context (cubeTransition scaleTransition : Z → SharedValue → AnimatedStyle).
Context (defaultTransition : AnimatedStyle).
Context (Metrics : Theme).
Context (p : MultiStoryContainerProps) (h : HookResult) (w : World).

Local Abbreviation render :=
  (MultiStoryContainer cubeTransition scaleTransition defaultTransition Metrics p h w).


End Render.

(** C8: with [visible] false [MultiStoryContainer] returns [null]: there is
    no modal and no list, no item and so no story content is rendered, and
    no gesture or scroll handler is part of the output. *)
Theorem invisible_renders_nothing {AnimatedStyle : Type}
    (cubeTransition scaleTransition : Z → SharedValue → AnimatedStyle)
    (defaultTransition : AnimatedStyle) (Metrics : Theme)
    (p : MultiStoryContainerProps) (h : HookResult) (w : World) :
  visible p = false →
  let output := MultiStoryContainer cubeTransition scaleTransition defaultTransition
                  Metrics p h w in
  output = None ∧ renderedChildren output = [] ∧ wiredHandlers output = ([], []).
Proof. intros Hv. unfold MultiStoryContainer. by rewrite Hv. Qed.

Lemma invisible_renders_nothing_witness :
  demoContainer hidden (hookAt 0) (worldWith None) = None.
Proof.
  apply (invisible_renders_nothing demoCube demoScale demoDefault demoMetrics
           hidden (hookAt 0) (worldWith None)). reflexivity.
Defined.

(** ** C7: one page per story group *)



(** The offsets are products, not running sums: on a screen
    411.42857142857144 wide the offset of index 6 is not the offset of
    index 5 plus one length, the two differing in the last binary digit. *)
Lemma offsets_are_products_not_sums :
  Layout.offset (getItemLayout demoMetrics 6)
  ≠ (Layout.offset (getItemLayout demoMetrics 5)
     + Layout.length (getItemLayout demoMetrics 5))%float.
Proof. vm_compute. discriminate. Qed.

(** ** C9: reporting the current story group *)

Section IndexEffect.
Context (p : MultiStoryContainerProps) (h : HookResult).

Lemma exec_commitIndexEffect_same w :
  effectDeps w = Some (onUserStoryIndexChange p, storyIndex h) →
  exec (commitIndexEffect p h) w = w.
Proof.
  intros Hdeps. unfold commitIndexEffect. rewrite exec_get.
  by rewrite bool_decide_eq_true_2.
Qed.

Lemma exec_commitIndexEffect_changed w :
  effectDeps w ≠ Some (onUserStoryIndexChange p, storyIndex h) →
  exec (commitIndexEffect p h) w =
    set_effectDeps (Some (onUserStoryIndexChange p, storyIndex h))
      (appended (match onUserStoryIndexChange p with
                 | Some f => [CallOnUserStoryIndexChange f (storyIndex h)]
                 | None => []
                 end) w).
Proof.
  intros Hdeps. unfold commitIndexEffect. rewrite exec_get.
  rewrite bool_decide_eq_false_2 by done.
  unfold indexEffect. destruct (onUserStoryIndexChange p); [done |].
  by rewrite appended_nil.
Qed.

(** Either way the dependencies of this render are the ones remembered. *)
Lemma effectDeps_after_commit w :
  effectDeps (exec (commitIndexEffect p h) w)
    = Some (onUserStoryIndexChange p, storyIndex h).
Proof.
  destruct (decide (effectDeps w = Some (onUserStoryIndexChange p, storyIndex h))).
  - by rewrite exec_commitIndexEffect_same.
  - by rewrite exec_commitIndexEffect_changed.
Qed.
End IndexEffect.

(** C9: after the first render, and after every render in which
    [storyIndex] differs from the one of the previous render, the index
    effect invokes [onUserStoryIndexChange], when the caller provided it,
    exactly once, with the new [storyIndex]. *)
Theorem index_change_notifies (p : MultiStoryContainerProps) (h : HookResult)
    (w : World) (f : callback) :
  onUserStoryIndexChange p = Some f →
  effectDeps w = None ∨ (∃ d, effectDeps w = Some d ∧ d.2 ≠ storyIndex h) →
  issued (commitIndexEffect p h) w = [CallOnUserStoryIndexChange f (storyIndex h)].
Proof.
  intros Hf Hchanged.
  assert (effectDeps w ≠ Some (onUserStoryIndexChange p, storyIndex h)) as Hne.
  { destruct Hchanged as [-> | (d & -> & Hd)]; [done |]. intros [= ->]. by apply Hd. }
  unfold issued. rewrite (exec_commitIndexEffect_changed _ _ _ Hne), Hf. simpl.
  apply drop_app_length.
Qed.

Lemma index_change_notifies_witness :
  issued (commitIndexEffect (twoGroups None) (hookAt 0)) (worldWith None)
    = [CallOnUserStoryIndexChange 7%nat 0] ∧
  issued (commitIndexEffect (twoGroups None) (hookAt 1))
         (exec (commitIndexEffect (twoGroups None) (hookAt 0)) (worldWith None))
    = [CallOnUserStoryIndexChange 7%nat 1].
Proof.
  split.
  - apply (index_change_notifies (twoGroups None) (hookAt 0) (worldWith None) 7%nat);
      [reflexivity | left; reflexivity].
  - apply (index_change_notifies (twoGroups None) (hookAt 1) _ 7%nat);
      [reflexivity | right; eexists; split; [reflexivity | discriminate]].
Defined.

(** No callback, no call; unchanged dependencies, no call. *)
Lemma index_effect_silent (p : MultiStoryContainerProps) (h : HookResult) (w : World) :
  onUserStoryIndexChange p = None ∨
  effectDeps w = Some (onUserStoryIndexChange p, storyIndex h) →
  issued (commitIndexEffect p h) w = [].
Proof.
  intros [Hnone | Hsame].
  - destruct (decide (effectDeps w = Some (onUserStoryIndexChange p, storyIndex h))).
    + unfold issued. rewrite exec_commitIndexEffect_same by done. apply drop_all.
    + unfold issued. rewrite exec_commitIndexEffect_changed, Hnone by done.
      simpl. rewrite app_nil_r. apply drop_all.
  - unfold issued. rewrite exec_commitIndexEffect_same by done. apply drop_all.
Qed.

Lemma exec_seq (m k : M unit) w : exec (m ;; k) w = exec k (exec m w).
Proof. unfold exec, mbind, M_bind. by destruct (m w). Qed.

Lemma renders_log (f : callback) rs :
  Forall (λ r, onUserStoryIndexChange r.1 = Some f) rs →
  ∀ w, effectDeps w = None ∨ (∃ i, effectDeps w = Some (Some f, i)) →
  log (exec (renders rs) w) =
    log w ++ (CallOnUserStoryIndexChange f
                <$> changes (snd <$> effectDeps w) ((λ r, storyIndex r.2) <$> rs)).
Proof.
  induction 1 as [| [p h] rs Hf _ IH]; intros w Hdeps; simpl in *.
  { by rewrite app_nil_r. }
  rewrite exec_seq.
  destruct (decide (effectDeps w = Some (onUserStoryIndexChange p, storyIndex h)))
    as [Hsame | Hdiff].
  - rewrite exec_commitIndexEffect_same by done.
    rewrite IH by done. rewrite Hsame. simpl.
    rewrite bool_decide_eq_true_2 by done. done.
  - rewrite exec_commitIndexEffect_changed by done. rewrite Hf in *.
    rewrite IH by (right; eexists; reflexivity). simpl.
    rewrite bool_decide_eq_false_2.
    + simpl. by rewrite <- app_assoc.
    + destruct Hdeps as [Hd | [i Hd]]; rewrite Hd in *; simpl; [done |].
      intros [= ->]. by apply Hdiff.
Qed.

Lemma renders_example :
  issued (renders [(twoGroups None, hookAt 0); (twoGroups None, hookAt 0);
                   (twoGroups None, hookAt 1); (twoGroups None, hookAt 0)])
         (worldWith None)
  = [CallOnUserStoryIndexChange 7%nat 0; CallOnUserStoryIndexChange 7%nat 1;
     CallOnUserStoryIndexChange 7%nat 0].
Proof. reflexivity. Qed.

(** * Further properties of the component *)

(** ** Navigation: what [nextStory] and [previousStory] can ask for *)

Lemma issued_nextStory (p : MultiStoryContainerProps) (h : HookResult) (w : World) :
  issued (nextStory p h) w =
    if bool_decide (storyIndex h + 1 = Z.of_nat (length (stories p)))
    then match onComplete p with Some f => [CallOnComplete f] | None => [] end
    else if bool_decide (storyIndex h + 1 < Z.of_nat (length (stories p)))
         then scroll_request w (storyIndex h + 1)
         else [].
Proof.
  apply issued_appended.
  case_bool_decide as Hlast; [by apply exec_nextStory_last |].
  case_bool_decide as Hlt; [by apply exec_nextStory_inner |].
  rewrite appended_nil. apply exec_nextStory_beyond. lia.
Qed.

Lemma issued_previousStory (h : HookResult) (w : World) :
  issued (previousStory h) w =
    if bool_decide (storyIndex h = 0) then []
    else scroll_request w (storyIndex h - 1).
Proof.
  apply issued_appended. case_bool_decide as Hz.
  - rewrite appended_nil. by apply exec_previousStory_first.
  - by apply exec_previousStory_other.
Qed.

Lemma elem_of_scroll_request e w index :
  e ∈ scroll_request w index →
  ∃ l, flatListRef w = Some l ∧ e = ScrollToIndex l index true.
Proof.
  unfold scroll_request. destruct (flatListRef w) as [l|]; intros He.
  - apply list_elem_of_singleton in He as ->. eauto.
  - by apply elem_of_nil in He.
Qed.

(** X1: [nextStory] issues at most one request.  It is [onComplete] only on
    the last group, and a [scrollToIndex] only before the last group; the
    scroll then targets [storyIndex + 1], which lies strictly below
    [stories.length], whatever [storyIndex] is. *)
Theorem nextStory_requests_bounded (p : MultiStoryContainerProps) (h : HookResult)
    (w : World) :
  (length (issued (nextStory p h) w) ≤ 1)%nat ∧
  ∀ e, e ∈ issued (nextStory p h) w →
    (storyIndex h + 1 = Z.of_nat (length (stories p)) ∧
     ∃ f, onComplete p = Some f ∧ e = CallOnComplete f) ∨
    (storyIndex h + 1 < Z.of_nat (length (stories p)) ∧
     ∃ l, flatListRef w = Some l ∧ e = ScrollToIndex l (storyIndex h + 1) true).
Proof.
  rewrite issued_nextStory.
  case_bool_decide as Hlast; [| case_bool_decide as Hlt].
  - destruct (onComplete p) as [f|]; simpl; (split; [lia |]); intros e He.
    + apply list_elem_of_singleton in He as ->. left. eauto.
    + by apply elem_of_nil in He.
  - split.
    + unfold scroll_request. destruct (flatListRef w); simpl; lia.
    + intros e He%elem_of_scroll_request. right. eauto.
  - simpl. split; [lia |]. intros e He. by apply elem_of_nil in He.
Qed.

(** X2: past the last group ([storyIndex + 1 > stories.length]) [nextStory]
    does nothing at all: no scroll, and no [onComplete] either.  This is the
    case of an empty [stories] list with a non-negative [storyIndex]. *)
Theorem nextStory_noop_beyond (p : MultiStoryContainerProps) (h : HookResult)
    (w : World) :
  Z.of_nat (length (stories p)) < storyIndex h + 1 ∨
  (stories p = [] ∧ 0 ≤ storyIndex h) →
  exec (nextStory p h) w = w.
Proof.
  intros Hbeyond. apply exec_nextStory_beyond.
  destruct Hbeyond as [? | [-> ?]]; simpl; lia.
Qed.

Lemma nextStory_noop_beyond_witness :
  exec (nextStory noGroups (hookAt 0)) (worldWith (Some 3%nat))
    = worldWith (Some 3%nat).
Proof.
  apply (nextStory_noop_beyond noGroups (hookAt 0) (worldWith (Some 3%nat))).
  right. split; [reflexivity | simpl; lia].
Defined.

(** X3: from an index inside the list ([0 <= storyIndex < stories.length])
    neither [nextStory] nor [previousStory] ever asks the list to scroll to
    an index outside [0, stories.length). *)
Theorem navigation_stays_in_range (p : MultiStoryContainerProps) (h : HookResult)
    (w : World) (l : handle) (i : Z) (animated : bool) :
  0 ≤ storyIndex h < Z.of_nat (length (stories p)) →
  ScrollToIndex l i animated ∈ issued (nextStory p h) w ++ issued (previousStory h) w →
  0 ≤ i < Z.of_nat (length (stories p)).
Proof.
  intros Hrange [Hnext | Hprev]%elem_of_app.
  - rewrite issued_nextStory in Hnext.
    case_bool_decide as Hlast; [| case_bool_decide as Hlt].
    + destruct (onComplete p).
      * by apply list_elem_of_singleton in Hnext.
      * by apply elem_of_nil in Hnext.
    + apply elem_of_scroll_request in Hnext as (l' & _ & [= _ -> _]). lia.
    + by apply elem_of_nil in Hnext.
  - rewrite issued_previousStory in Hprev. case_bool_decide as Hz.
    + by apply elem_of_nil in Hprev.
    + apply elem_of_scroll_request in Hprev as (l' & _ & [= _ -> _]). lia.
Qed.

Lemma navigation_stays_in_range_witness :
  0 ≤ 0 < Z.of_nat (length (stories (twoGroups None))).
Proof.
  apply (navigation_stays_in_range (twoGroups None) (hookAt 1)
           (worldWith (Some 3%nat)) 3%nat 0 true).
  - simpl. lia.
  - vm_compute. apply list_elem_of_here.
Defined.

(** X4: going forward and coming back cancel.  When the list is attached
    and the hook follows the scroll, [previousStory] at the index
    [nextStory] scrolled to asks for the index [nextStory] started from,
    and the other way round. *)
Theorem next_previous_round_trip (p : MultiStoryContainerProps) (h h' : HookResult)
    (w : World) (l : handle) :
  flatListRef w = Some l →
  0 ≤ storyIndex h → storyIndex h + 1 < Z.of_nat (length (stories p)) →
  storyIndex h' = storyIndex h + 1 →
  (issued (nextStory p h) w = [ScrollToIndex l (storyIndex h') true] ∧
   issued (previousStory h') (exec (nextStory p h) w)
     = [ScrollToIndex l (storyIndex h) true]) ∧
  (issued (previousStory h') w = [ScrollToIndex l (storyIndex h) true] ∧
   issued (nextStory p h) (exec (previousStory h') w)
     = [ScrollToIndex l (storyIndex h') true]).
Proof.
  intros Hlist Hpos Hlt Hh'.
  assert (Hnext : ∀ w0, flatListRef w0 = Some l →
            issued (nextStory p h) w0 = [ScrollToIndex l (storyIndex h') true]).
  { intros w0 Hw0. rewrite issued_nextStory.
    rewrite bool_decide_eq_false_2, bool_decide_eq_true_2 by lia.
    unfold scroll_request. by rewrite Hw0, Hh'. }
  assert (Hprev : ∀ w0, flatListRef w0 = Some l →
            issued (previousStory h') w0 = [ScrollToIndex l (storyIndex h) true]).
  { intros w0 Hw0. rewrite issued_previousStory.
    rewrite bool_decide_eq_false_2 by lia.
    unfold scroll_request. rewrite Hw0, Hh'. do 3 f_equal. lia. }
  split_and!; [by apply Hnext | apply Hprev | by apply Hprev | apply Hnext].
  - rewrite exec_nextStory_inner by done. done.
  - rewrite exec_previousStory_other by lia. done.
Qed.

Lemma next_previous_round_trip_witness :
  issued (previousStory (hookAt 1))
         (exec (nextStory (twoGroups None) (hookAt 0)) (worldWith (Some 3%nat)))
    = [ScrollToIndex 3%nat 0 true].
Proof.
  apply (next_previous_round_trip (twoGroups None) (hookAt 0) (hookAt 1)
           (worldWith (Some 3%nat)) 3%nat); simpl; first [reflexivity | lia].
Defined.

(** ** The registry of list items, [itemsRef] *)

(** What [itemsRef.current[j]] gives a caller that tests it with [?.]: a
    handle, or nothing for a hole, a [null] and an index out of range. *)
Lemma read_assign_ne {A} (l : list (option A)) (i j : Z) (v : option A) :
  0 ≤ i → j ≠ i →
  mjoin (js_index (js_assign l i v) j) = mjoin (js_index l j).
Proof.
  intros Hi Hne. unfold js_index, js_assign.
  destruct (Z.ltb_spec i 0) as [|_]; [lia |].
  destruct (Z.ltb_spec j 0) as [|Hj]; [done |].
  assert (Z.to_nat j ≠ Z.to_nat i) by lia.
  case_bool_decide as Hlt.
  - by rewrite list_lookup_insert_ne.
  - destruct (decide (Z.to_nat j < length l)%nat) as [Hin | Hout].
    + by rewrite lookup_app_l.
    + rewrite (lookup_ge_None_2 l) by lia.
      rewrite lookup_app_r by lia.
      destruct (decide (Z.to_nat j < Z.to_nat i)%nat).
      * rewrite lookup_app_l by (rewrite length_replicate; lia).
        rewrite lookup_replicate_2 by lia. done.
      * rewrite lookup_ge_None_2; [done |].
        rewrite length_app, length_replicate. simpl. lia.
Qed.

(** X5: the ref callback of a list item, [itemsRef.current[index] =
    elements], makes index [index] read [elements] (the array growing when
    [index] lies past its end), changes what no other index reads, and
    touches nothing else of the state. *)
Theorem itemRef_registers (w : World) (index : Z) (elements : option handle) :
  0 ≤ index →
  let w' := exec (itemRef index elements) w in
  mjoin (js_index (itemsRef w') index) = elements ∧
  (∀ j, j ≠ index →
        mjoin (js_index (itemsRef w') j) = mjoin (js_index (itemsRef w) j)) ∧
  log w' = log w ∧ flatListRef w' = flatListRef w ∧ storyRef w' = storyRef w ∧
  isLoading w' = isLoading w ∧ effectDeps w' = effectDeps w.
Proof.
  intros Hi. simpl. unfold itemRef, exec. simpl. split_and!; try done.
  - by rewrite js_index_assign.
  - intros j Hj. by apply read_assign_ne.
Qed.

Lemma itemRef_registers_witness :
  mjoin (js_index (itemsRef (exec (itemRef 2 (Some 12%nat)) worldWithItems)) 2)
    = Some 12%nat.
Proof.
  apply (itemRef_registers worldWithItems 2 (Some 12%nat)). lia.
Defined.

Lemma js_index_take {A} (l : list A) (n : nat) (j : Z) :
  js_index (take n l) j = if bool_decide (j < Z.of_nat n) then js_index l j else None.
Proof.
  unfold js_index. destruct (Z.ltb_spec j 0) as [|Hj]; [by case_bool_decide |].
  case_bool_decide.
  - apply lookup_take_lt. lia.
  - apply lookup_take_ge. lia.
Qed.

(** X6: the trimming effect, [itemsRef.current.slice(0, stories.length)],
    leaves at most [stories.length] entries, keeps every entry below
    [stories.length] as it was, empties every index from [stories.length]
    on, and running it again changes nothing. *)
Theorem sliceItemsRef_trims (p : MultiStoryContainerProps) (w : World) :
  let w' := exec (sliceItemsRef p) w in
  (length (itemsRef w') ≤ length (stories p))%nat ∧
  (∀ j, j < Z.of_nat (length (stories p)) →
        js_index (itemsRef w') j = js_index (itemsRef w) j) ∧
  (∀ j, Z.of_nat (length (stories p)) ≤ j → js_index (itemsRef w') j = None) ∧
  exec (sliceItemsRef p) w' = w'.
Proof.
  simpl. unfold sliceItemsRef, exec. simpl. split_and!.
  - rewrite length_take. lia.
  - intros j Hj. rewrite js_index_take. by rewrite bool_decide_eq_true_2.
  - intros j Hj. rewrite js_index_take. by rewrite bool_decide_eq_false_2 by lia.
  - unfold set_itemsRef. simpl. by rewrite take_take, Nat.min_id.
Qed.

(** X7: a handle registered for an index inside the list survives the
    trimming effect; one registered at or past [stories.length] is dropped
    by it. *)
Theorem sliceItemsRef_after_itemRef (p : MultiStoryContainerProps) (w : World)
    (index : Z) (item : handle) :
  0 ≤ index →
  let w' := exec (sliceItemsRef p) (exec (itemRef index (Some item)) w) in
  (index < Z.of_nat (length (stories p)) →
     mjoin (js_index (itemsRef w') index) = Some item) ∧
  (Z.of_nat (length (stories p)) ≤ index →
     mjoin (js_index (itemsRef w') index) = None).
Proof.
  intros Hi. simpl. unfold sliceItemsRef, itemRef, exec. simpl.
  rewrite js_index_take. split; intros Hcmp.
  - rewrite bool_decide_eq_true_2 by done. by rewrite js_index_assign.
  - by rewrite bool_decide_eq_false_2 by lia.
Qed.

Lemma sliceItemsRef_after_itemRef_witness :
  mjoin (js_index (itemsRef (exec (sliceItemsRef (twoGroups None))
                               (exec (itemRef 5 (Some 12%nat)) worldWithItems))) 5)
    = None.
Proof.
  apply (proj2 (sliceItemsRef_after_itemRef (twoGroups None) worldWithItems 5
                  12%nat ltac:(lia))). simpl. lia.
Defined.

Lemma nextStory_requests_bounded_witness :
  (storyIndex (hookAt 0) + 1 = Z.of_nat (length (stories (twoGroups None))) ∧
   ∃ f, onComplete (twoGroups None) = Some f ∧ ScrollToIndex 3%nat 1 true = CallOnComplete f) ∨
  (storyIndex (hookAt 0) + 1 < Z.of_nat (length (stories (twoGroups None))) ∧
   ∃ l, flatListRef (worldWith (Some 3%nat)) = Some l ∧
        ScrollToIndex 3%nat 1 true = ScrollToIndex l (storyIndex (hookAt 0) + 1) true).
Proof.
  apply (proj2 (nextStory_requests_bounded (twoGroups None) (hookAt 0)
                  (worldWith (Some 3%nat)))).
  vm_compute. apply list_elem_of_here.
Defined.

Lemma sliceItemsRef_trims_witness :
  js_index (itemsRef (exec (sliceItemsRef (twoGroups None))
                        (exec (itemRef 5 (Some 12%nat)) worldWithItems))) 1
    = Some (Some 11%nat).
Proof.
  destruct (sliceItemsRef_trims (twoGroups None)
              (exec (itemRef 5 (Some 12%nat)) worldWithItems)) as (_ & Hkeep & _).
  rewrite Hkeep; [reflexivity | simpl; lia].
Defined.

(** ** The forwarders of the container *)

Section Forwarders.
Context (h : HookResult).

Lemma exec_forwarders_inactive w :
  activeItem h w = None →
  exec (onScrollBeginDrag h) w = w ∧
  exec (onScrollEndDrag h) w = w ∧
  ∀ v, exec (handleLongPress h v) w = w.
Proof.
  intros Hnone. unfold onScrollBeginDrag, onScrollEndDrag, handleLongPress.
  split_and!; try intros v; by rewrite exec_get, Hnone.
Qed.

Lemma issued_forwarders_active w item story :
  activeItem h w = Some item → storyRef w !! item = Some story →
  issued (onScrollBeginDrag h) w = [Pause story true] ∧
  issued (onScrollEndDrag h) w = [Pause story false] ∧
  ∀ v, issued (handleLongPress h v) w = [HandleLongPress story v].
Proof.
  intros Hactive Hstory. unfold onScrollBeginDrag, onScrollEndDrag, handleLongPress.
  split_and!; try intros v; apply issued_appended; rewrite exec_get, Hactive.
  - by apply exec_item_onScrollBegin.
  - by apply exec_item_onScrollEnd.
  - by apply exec_item_handleLongPress.
Qed.

(** The one request a forwarder can make, given the world it runs in. *)
Lemma exec_forwarders w :
  let story := activeItem h w ≫= λ item, storyRef w !! item in
  exec (onScrollBeginDrag h) w
    = appended (match story with Some s => [Pause s true] | None => [] end) w ∧
  exec (onScrollEndDrag h) w
    = appended (match story with Some s => [Pause s false] | None => [] end) w ∧
  ∀ v, exec (handleLongPress h v) w
    = appended (match story with Some s => [HandleLongPress s v] | None => [] end) w.
Proof.
  simpl. unfold onScrollBeginDrag, onScrollEndDrag, handleLongPress.
  split_and!; try intros v; rewrite exec_get;
    (destruct (activeItem h w) as [item|]; simpl; [| by rewrite appended_nil]);
    unfold ListItemRef.onScrollBegin, ListItemRef.onScrollEnd,
      ListItemRef.handleLongPress; rewrite exec_get;
    (destruct (storyRef w !! item); simpl; [done | by rewrite appended_nil]).
Qed.
End Forwarders.

(** X8: once the trimming effect has run, a [storyIndex] at or past
    [stories.length] (a stale index after the list shrank) reaches no item:
    [onScrollBeginDrag], [onScrollEndDrag] and [handleLongPress] then leave
    the world as it is, whatever handles had been registered. *)
Theorem forwarders_silent_past_the_list (p : MultiStoryContainerProps)
    (h : HookResult) (w : World) :
  Z.of_nat (length (stories p)) ≤ storyIndex h →
  let w' := exec (sliceItemsRef p) w in
  exec (onScrollBeginDrag h) w' = w' ∧
  exec (onScrollEndDrag h) w' = w' ∧
  ∀ v, exec (handleLongPress h v) w' = w'.
Proof.
  intros Hpast. simpl. apply exec_forwarders_inactive.
  unfold activeItem, sliceItemsRef, exec. simpl.
  rewrite js_index_take. by rewrite bool_decide_eq_false_2 by lia.
Qed.

Lemma forwarders_silent_past_the_list_witness :
  exec (onScrollBeginDrag (hookAt 2)) (exec (sliceItemsRef (twoGroups None)) worldWithMany)
    = exec (sliceItemsRef (twoGroups None)) worldWithMany.
Proof.
  apply (forwarders_silent_past_the_list (twoGroups None) (hookAt 2) worldWithMany).
  simpl. lia.
Defined.

(** X9: registration and forwarding compose.  After the item shown at
    [storyIndex] has registered its handle through the ref callback, the
    container's [onScrollBeginDrag], [onScrollEndDrag] and
    [handleLongPress(v)] reach the story mounted in that item, whatever was
    registered at that index before. *)
Theorem registered_item_is_reached (h : HookResult) (w : World) (item story : handle) :
  0 ≤ storyIndex h →
  storyRef w !! item = Some story →
  let w' := exec (itemRef (storyIndex h) (Some item)) w in
  issued (onScrollBeginDrag h) w' = [Pause story true] ∧
  issued (onScrollEndDrag h) w' = [Pause story false] ∧
  ∀ v, issued (handleLongPress h v) w' = [HandleLongPress story v].
Proof.
  intros Hi Hstory. simpl.
  apply issued_forwarders_active with item; [by apply activeItem_after_itemRef | done].
Qed.

Lemma registered_item_is_reached_witness :
  issued (onScrollBeginDrag (hookAt 0))
         (exec (itemRef 0 (Some 11%nat)) worldWithItems)
    = [Pause 21%nat true].
Proof.
  apply (registered_item_is_reached (hookAt 0) worldWithItems 11%nat 21%nat);
    [simpl; lia | reflexivity].
Defined.

(** X10: when the item shown at [storyIndex] unmounts, React calls its ref
    callback with [null]; from then on the three forwarders do nothing,
    even though the story of the old item may still be on record. *)
Theorem unregistered_item_is_not_reached (h : HookResult) (w : World) :
  0 ≤ storyIndex h →
  let w' := exec (itemRef (storyIndex h) None) w in
  exec (onScrollBeginDrag h) w' = w' ∧
  exec (onScrollEndDrag h) w' = w' ∧
  ∀ v, exec (handleLongPress h v) w' = w'.
Proof.
  intros Hi. simpl. apply exec_forwarders_inactive.
  unfold activeItem, itemRef, exec. simpl. by rewrite js_index_assign.
Qed.

Lemma unregistered_item_is_not_reached_witness :
  exec (onScrollBeginDrag (hookAt 1)) (exec (itemRef 1 None) worldWithItems)
    = exec (itemRef 1 None) worldWithItems.
Proof.
  apply (unregistered_item_is_not_reached (hookAt 1) worldWithItems). simpl. lia.
Defined.

(** X11: the three forwarders never scroll the list and never call back
    into the caller: each adds at most one request to the log, a [pause] or
    a [handleLongPress] of a mounted story, and changes nothing else of the
    state. *)
Theorem forwarders_only_pause (h : HookResult) (w : World) (v : bool) (m : M unit) :
  m ∈ [onScrollBeginDrag h; onScrollEndDrag h; handleLongPress h v] →
  (length (issued m w) ≤ 1)%nat ∧
  (∀ e, e ∈ issued m w →
        ∃ story item, activeItem h w = Some item ∧ storyRef w !! item = Some story ∧
          (e = Pause story true ∨ e = Pause story false ∨
           e = HandleLongPress story v)) ∧
  flatListRef (exec m w) = flatListRef w ∧ itemsRef (exec m w) = itemsRef w ∧
  storyRef (exec m w) = storyRef w ∧ isLoading (exec m w) = isLoading w ∧
  effectDeps (exec m w) = effectDeps w.
Proof.
  intros Hm. destruct (exec_forwarders h w) as (Hb & He & Hl). specialize (Hl v).
  simpl in *.
  assert (∃ mk : handle → event,
            (∀ s, mk s = Pause s true ∨ mk s = Pause s false ∨
                  mk s = HandleLongPress s v) ∧
            exec m w = appended
              (match activeItem h w ≫= λ item, storyRef w !! item with
               | Some s => [mk s] | None => [] end) w) as (mk & Hmk & Hexec).
  { apply elem_of_cons in Hm as [-> | Hm]; [by exists (λ s, Pause s true); eauto |].
    apply elem_of_cons in Hm as [-> | Hm]; [by exists (λ s, Pause s false); eauto |].
    apply list_elem_of_singleton in Hm as ->.
    by exists (λ s, HandleLongPress s v); eauto. }
  rewrite (issued_appended _ _ _ Hexec), Hexec.
  destruct (activeItem h w) as [item|]; simpl.
  - destruct (storyRef w !! item) as [s|] eqn:Hs; simpl.
    + split_and!; try done; try (simpl; lia).
      intros e ->%list_elem_of_singleton. exists s, item. by eauto.
    + split_and!; try done; try (simpl; lia).
      intros e Hin. by apply elem_of_nil in Hin.
  - split_and!; try done; try (simpl; lia).
    intros e Hin. by apply elem_of_nil in Hin.
Qed.

Lemma forwarders_only_pause_witness :
  (length (issued (onScrollEndDrag (hookAt 1)) worldWithItems) ≤ 1)%nat.
Proof.
  apply (forwarders_only_pause (hookAt 1) worldWithItems true
           (onScrollEndDrag (hookAt 1))).
  apply list_elem_of_further, list_elem_of_here.
Defined.

(** ** The index effect over a run of renders *)

Lemma changes_snoc (prev : option Z) (l : list Z) (i : Z) :
  changes prev (l ++ [i]) =
    changes prev l ++
    (if bool_decide (from_option Some prev (last l) = Some i) then [] else [i]).
Proof.
  revert prev. induction l as [| i0 l IH]; intros prev; simpl.
  { by case_bool_decide. }
  assert (Hlast : from_option Some prev (last (i0 :: l))
                  = from_option Some (Some i0) (last l)).
  { destruct l as [| i1 l]; [done |]. rewrite last_cons_cons.
    destruct (last (i1 :: l)) eqn:Hl; [done |]. by apply last_None in Hl. }
  rewrite Hlast. case_bool_decide as Hprev.
  - rewrite IH. by rewrite Hprev.
  - simpl. by rewrite IH.
Qed.

Lemma issued_renders (f : callback) rs w :
  Forall (λ r, onUserStoryIndexChange r.1 = Some f) rs →
  effectDeps w = None →
  issued (renders rs) w =
    CallOnUserStoryIndexChange f <$> changes None ((λ r, storyIndex r.2) <$> rs).
Proof.
  intros Hf Hw. unfold issued.
  rewrite (renders_log f rs Hf w) by (by left). rewrite Hw. apply drop_app_length.
Qed.

(** X12: over a run of renders that pass the same [onUserStoryIndexChange],
    starting with the mount, one more render adds exactly one call of the
    callback, with the new [storyIndex], when that index differs from the
    index of the render before it (or there was none), and no call when the
    index is the same. *)
Theorem index_reported_once_per_change (f : callback)
    (rs : list (MultiStoryContainerProps * HookResult))
    (r : MultiStoryContainerProps * HookResult) (w : World) :
  Forall (λ r, onUserStoryIndexChange r.1 = Some f) (rs ++ [r]) →
  effectDeps w = None →
  issued (renders (rs ++ [r])) w =
    issued (renders rs) w ++
    (if bool_decide (last ((λ r, storyIndex r.2) <$> rs) = Some (storyIndex r.2))
     then []
     else [CallOnUserStoryIndexChange f (storyIndex r.2)]).
Proof.
  intros Hf Hw.
  rewrite (issued_renders f (rs ++ [r])) by done.
  rewrite (issued_renders f rs) by (by apply Forall_app in Hf as [? _]).
  rewrite fmap_app. simpl. rewrite changes_snoc, fmap_app. f_equal.
  replace (from_option Some None (last ((λ r0, storyIndex r0.2) <$> rs)))
    with (last ((λ r0, storyIndex r0.2) <$> rs))
    by (by destruct (last _)).
  by case_bool_decide.
Qed.

Lemma index_reported_once_per_change_witness :
  issued (renders ([(twoGroups None, hookAt 0); (twoGroups None, hookAt 1)]
                   ++ [(twoGroups None, hookAt 1)])) (worldWith None)
  = issued (renders [(twoGroups None, hookAt 0); (twoGroups None, hookAt 1)])
           (worldWith None) ++ [].
Proof.
  apply (index_reported_once_per_change 7%nat
           [(twoGroups None, hookAt 0); (twoGroups None, hookAt 1)]
           (twoGroups None, hookAt 1) (worldWith None)); [| reflexivity].
  repeat constructor.
Defined.

(** X13: the callback itself is a dependency of the effect.  A render that
    passes another function as [onUserStoryIndexChange] makes the effect
    call the new function with the current [storyIndex], although the index
    did not change. *)
Theorem new_callback_is_called (p : MultiStoryContainerProps) (h : HookResult)
    (w : World) (f g : callback) :
  effectDeps w = Some (Some f, storyIndex h) →
  onUserStoryIndexChange p = Some g → g ≠ f →
  issued (commitIndexEffect p h) w = [CallOnUserStoryIndexChange g (storyIndex h)].
Proof.
  intros Hdeps Hg Hne. unfold issued.
  rewrite exec_commitIndexEffect_changed, Hg.
  - simpl. apply drop_app_length.
  - rewrite Hdeps, Hg. intros [= ->]. by apply Hne.
Qed.

Lemma new_callback_is_called_witness :
  issued (commitIndexEffect (twoGroups None) (hookAt 0))
         (set_effectDeps (Some (Some 8%nat, 0)) (worldWith None))
    = [CallOnUserStoryIndexChange 7%nat 0].
Proof.
  apply (new_callback_is_called (twoGroups None) (hookAt 0) _ 8%nat 7%nat);
    [reflexivity | reflexivity | discriminate].
Defined.

(** X14: the effect is registered before the early return, so an invisible
    container, which renders nothing, still reports its [storyIndex] on
    mount. *)
Theorem invisible_container_reports_index {AnimatedStyle : Type}
    (cubeTransition scaleTransition : Z → SharedValue → AnimatedStyle)
    (defaultTransition : AnimatedStyle) (Metrics : Theme)
    (p : MultiStoryContainerProps) (h : HookResult) (w : World) (f : callback) :
  visible p = false →
  onUserStoryIndexChange p = Some f →
  effectDeps w = None →
  MultiStoryContainer cubeTransition scaleTransition defaultTransition Metrics p h w
    = None ∧
  issued (commitIndexEffect p h) w = [CallOnUserStoryIndexChange f (storyIndex h)].
Proof.
  intros Hv Hf Hw. split.
  - unfold MultiStoryContainer. by rewrite Hv.
  - unfold issued. rewrite exec_commitIndexEffect_changed, Hf.
    + simpl. apply drop_app_length.
    + by rewrite Hw.
Qed.

Lemma invisible_container_reports_index_witness :
  demoContainer hidden (hookAt 1) (worldWith None) = None ∧
  issued (commitIndexEffect hidden (hookAt 1)) (worldWith None)
    = [CallOnUserStoryIndexChange 7%nat 1].
Proof.
  apply (invisible_container_reports_index demoCube demoScale demoDefault
           demoMetrics hidden (hookAt 1) (worldWith None) 7%nat); reflexivity.
Defined.

(** ** What a mounted story receives *)

Lemma findIndex_hit {A} (f : A → bool) (l : list A) :
  0 ≤ findIndex f l →
  ∃ x, l !! Z.to_nat (findIndex f l) = Some x ∧ f x = true.
Proof.
  unfold findIndex. destruct (list_find _ l) as [[i x]|] eqn:Hfind; [| lia].
  intros _. apply list_find_Some in Hfind as (Hx & Hfx & _).
  exists x. by rewrite Nat2Z.id.
Qed.

(** X16: every key of the rest object a list item spreads, other than
    [index] and [userStoryIndex], reaches the mounted story with the
    forwarded value, [transitionMode] and [renderIndicatorComponent]
    included, also when the list item writes an attribute of the same name
    before the spread ([userStories], [progressIndex], [maxVideoDuration],
    [renderHeaderComponent], [renderFooterComponent]): the forwarded value
    wins. *)
Theorem forwarded_props_reach_story {AnimatedStyle : Type}
    (cubeTransition scaleTransition : Z → SharedValue → AnimatedStyle)
    (defaultTransition : AnimatedStyle)
    (item : StoriesType) (index : Z) (scrollX : SharedValue) (storyIndex : Z)
    (onComplete : option callback) (viewedStories : option (list (list bool)))
    (loading : bool) (props : RestProps)
    (animatedStyle : AnimatedStyle) (storyProps : gmap string value)
    (k : string) (v : value) :
  child (MultiStoryListItem cubeTransition scaleTransition defaultTransition item
           index scrollX storyIndex onComplete viewedStories loading props)
    = StoryContainer animatedStyle storyProps →
  k ∉ ["index"; "userStoryIndex"] →
  rest_object props !! k = Some v →
  storyProps !! k = Some v.
Proof.
  intros (_ & _ & ->)%child_story_inv Hk Hv.
  unfold storyContainerProps, js_spread.
  rewrite !lookup_insert_ne by (intros <-; apply Hk; set_solver).
  by apply lookup_union_Some_l.
Qed.

Lemma forwarded_props_reach_story_witness :
  storyContainerProps (group 1) 0 0 None (Some [])
    {| transitionMode := Some Cube; renderIndicatorComponent := None;
       forwarded := {[ "renderFooterComponent" := VFun (FnCaller 4%nat) ]} |}
    !! "transitionMode" = Some (VMode Cube).
Proof.
  apply (forwarded_props_reach_story demoCube demoScale demoDefault (group 1) 0
           {| current := 0%Q |} 0 None (Some []) false
           {| transitionMode := Some Cube; renderIndicatorComponent := None;
              forwarded := {[ "renderFooterComponent" := VFun (FnCaller 4%nat) ]} |}
           "cube" _ "transitionMode" (VMode Cube));
    [reflexivity | | reflexivity].
  intros Hin. repeat (apply elem_of_cons in Hin as [Heq | Hin]; [discriminate |]).
  by apply elem_of_nil in Hin.
Defined.

(** X18: when the item has a [viewedStories] entry and no [progressIndex]
    is forwarded, the [progressIndex] its story receives is a position of
    that entry whenever the entry is not empty, and a [progressIndex] other
    than 0 always points at an unviewed slide. *)
Theorem progressIndex_points_into_entry (item : StoriesType) (index storyIndex : Z)
    (onComplete : option callback) (vs : list (list bool)) (arr : list bool)
    (props : RestProps) :
  js_index vs index = Some arr →
  forwarded props !! "progressIndex" = None →
  ∃ n : Z,
    storyContainerProps item index storyIndex onComplete (Some vs) props
      !! "progressIndex" = Some (VNum n) ∧
    (arr ≠ [] → 0 ≤ n < Z.of_nat (length arr)) ∧
    (arr = [] → n = 0) ∧
    (n ≠ 0 → arr !! Z.to_nat n = Some false).
Proof.
  intros Harr Hprops.
  assert (Hlook : storyContainerProps item index storyIndex onComplete (Some vs) props
                    !! "progressIndex" = Some (progressIndex index (Some vs))).
  { rewrite storyProps_literal by done. apply literalProps_lookup. }
  unfold progressIndex in Hlook. rewrite (storyInitialIndex_present _ _ _ Harr) in Hlook.
  pose proof (findIndex_range negb arr) as Hrange.
  destruct (Z.ltb_spec (findIndex negb arr) 0) as [Hneg | Hpos].
  - exists 0. split_and!; [done | | done | done].
    intros Hne. destruct arr; [done |]. simpl. lia.
  - exists (findIndex negb arr). split_and!; [done | lia | |].
    + intros ->. simpl in Hrange. lia.
    + intros _. destruct (findIndex_hit negb arr Hpos) as (x & Hx & Hfx).
      by destruct x.
Qed.

Lemma progressIndex_points_into_entry_witness :
  ∃ n : Z,
    storyContainerProps (group 1) 0 0 None (Some [[true; false; false]]) noProps
      !! "progressIndex" = Some (VNum n) ∧
    ([true; false; false] ≠ [] → 0 ≤ n < Z.of_nat (length [true; false; false])) ∧
    ([true; false; false] = [] → n = 0) ∧
    (n ≠ 0 → [true; false; false] !! Z.to_nat n = Some false).
Proof.
  apply (progressIndex_points_into_entry (group 1) 0 0 None [[true; false; false]]
           [true; false; false] noProps); reflexivity.
Defined.

(** ** What the container hands to a list item *)

Lemma restProp_number (r : RestProps) (k : string) (own n : Z) :
  restProp asNumber r k own = Some n →
  default (VNum own) (forwarded r !! k) = VNum n.
Proof.
  unfold restProp. destruct (forwarded r !! k) as [[]|]; simpl; by intros [= ->].
Qed.

Lemma restProp_boolean (r : RestProps) (k : string) (own b : bool) :
  restProp asBoolean r k own = Some b →
  default (VBool own) (forwarded r !! k) = VBool b.
Proof.
  unfold restProp. destruct (forwarded r !! k) as [[]|]; simpl; by intros [= ->].
Qed.

Lemma forwarded_itemRest (r : RestProps) (k : string) :
  k ∉ ["item"; "index"; "scrollX"; "storyIndex"; "onComplete"; "viewedStories";
       "isLoading"] →
  forwarded (itemRest r) !! k = forwarded r !! k.
Proof.
  intros Hk. unfold itemRest. simpl.
  rewrite !lookup_delete_ne by (intros <-; apply Hk; set_solver). done.
Qed.

Section RenderItem.
Context {AnimatedStyle : Type}.
Context (cubeTransition scaleTransition : Z → SharedValue → AnimatedStyle).
Context (defaultTransition : AnimatedStyle).
Context (Metrics : Theme).
Context (p : MultiStoryContainerProps) (h : HookResult) (w : World).

Lemma render_renderItem (m : Modal AnimatedStyle) :
  MultiStoryContainer cubeTransition scaleTransition defaultTransition Metrics p h w
    = Some m →
  FlatList.renderItem _ (flatList _ (pan _ (root _ m)))
    = renderItem cubeTransition scaleTransition defaultTransition p h w.
Proof.
  unfold MultiStoryContainer. destruct (visible p); [| done]. by intros [= <-].
Qed.

(** The list item [renderItem] builds, read back from its result. *)
Lemma renderItem_Some (item : StoriesType) (index : Z) (view : ItemView AnimatedStyle) :
  renderItem cubeTransition scaleTransition defaultTransition p h w item index
    = Some view →
  ∃ item' index' storyIndex' isLoading',
    default (VNum index) (forwarded (props p) !! "index") = VNum index' ∧
    default (VNum (storyIndex h)) (forwarded (props p) !! "storyIndex")
      = VNum storyIndex' ∧
    default (VBool (isLoading w)) (forwarded (props p) !! "isLoading")
      = VBool isLoading' ∧
    view = MultiStoryListItem cubeTransition scaleTransition defaultTransition
             item' index' (scrollX h) storyIndex' (onComplete p)
             (Some (default [] (viewedStories p))) isLoading' (itemRest (props p)).
Proof.
  unfold renderItem. intros Hview.
  destruct (restProp asItem _ _ _) as [item'|]; [| done]. simpl in Hview.
  destruct (restProp asNumber _ "index" _) as [index'|] eqn:Hindex; [| done].
  simpl in Hview.
  destruct (restProp asSharedValue _ _ _) as [scrollX'|] eqn:Hscroll; [| done].
  simpl in Hview.
  destruct (restProp asNumber _ "storyIndex" _) as [storyIndex'|] eqn:Hstory; [| done].
  simpl in Hview.
  destruct (restProp asBoolean _ _ _) as [isLoading'|] eqn:Hloading; [| done].
  simpl in Hview. injection Hview as <-.
  assert (scrollX' = scrollX h) as ->.
  { unfold restProp in Hscroll. destruct (forwarded _ !! "scrollX"); [done |].
    by injection Hscroll. }
  exists item', index', storyIndex', isLoading'.
  split_and!; [by apply restProp_number | by apply restProp_number
              | by apply restProp_boolean | done].
Qed.
End RenderItem.

(** X15: the [index] a mounted story receives is the rest prop [index]
    when the caller passed one and the item's position in the list
    otherwise, and its [userStoryIndex] is the rest prop [storyIndex] when
    the caller passed one and the hook's [storyIndex] otherwise.  Both are
    written after the list item's own spread, so no other forwarded prop
    changes them. *)
Theorem story_receives_item_indices {AnimatedStyle : Type}
    (cubeTransition scaleTransition : Z → SharedValue → AnimatedStyle)
    (defaultTransition : AnimatedStyle) (Metrics : Theme)
    (p : MultiStoryContainerProps) (h : HookResult) (w : World)
    (m : Modal AnimatedStyle) (item : StoriesType) (index : Z)
    (view : ItemView AnimatedStyle)
    (animatedStyle : AnimatedStyle) (storyProps : gmap string value) :
  MultiStoryContainer cubeTransition scaleTransition defaultTransition Metrics p h w
    = Some m →
  FlatList.renderItem _ (flatList _ (pan _ (root _ m))) item index = Some view →
  child view = StoryContainer animatedStyle storyProps →
  storyProps !! "index"
    = Some (default (VNum index) (forwarded (props p) !! "index")) ∧
  storyProps !! "userStoryIndex"
    = Some (default (VNum (storyIndex h)) (forwarded (props p) !! "storyIndex")).
Proof.
  intros Hm Hview Hchild. rewrite (render_renderItem _ _ _ _ _ _ _ _ Hm) in Hview.
  apply renderItem_Some in Hview as (item' & i & s & l & -> & -> & _ & ->).
  apply child_story_inv in Hchild as (_ & _ & ->). apply storyProps_index.
Qed.

Lemma story_receives_item_indices_witness :
  ∃ m view,
    demoContainer overridden (hookAt 0) (worldWith None) = Some m ∧
    FlatList.renderItem _ (flatList _ (pan _ (root _ m))) (group 1) 0 = Some view ∧
    storyContainerProps (group 1) 5 5 None (Some []) (itemRest (props overridden))
      !! "index" = Some (VNum 5).
Proof.
  eexists _, _. split; [reflexivity |]. split; [reflexivity |].
  apply (story_receives_item_indices demoCube demoScale demoDefault demoMetrics
           overridden (hookAt 0) (worldWith None) _ (group 1) 0 _ demoDefault _
           eq_refl eq_refl eq_refl).
Defined.

(** X17: a story whose [index], as it receives it, has no entry in
    [viewedStories] (the prop was not passed, so that it defaults to the
    empty array, or it is shorter than the list) is mounted with
    [progressIndex] [undefined], not 0, unless the forwarded props carry a
    [progressIndex]. *)
Theorem progressIndex_undefined_without_entry {AnimatedStyle : Type}
    (cubeTransition scaleTransition : Z → SharedValue → AnimatedStyle)
    (defaultTransition : AnimatedStyle) (Metrics : Theme)
    (p : MultiStoryContainerProps) (h : HookResult) (w : World)
    (m : Modal AnimatedStyle) (item : StoriesType) (index i : Z)
    (view : ItemView AnimatedStyle)
    (animatedStyle : AnimatedStyle) (storyProps : gmap string value) :
  MultiStoryContainer cubeTransition scaleTransition defaultTransition Metrics p h w
    = Some m →
  FlatList.renderItem _ (flatList _ (pan _ (root _ m))) item index = Some view →
  child view = StoryContainer animatedStyle storyProps →
  storyProps !! "index" = Some (VNum i) →
  js_index (default [] (viewedStories p)) i = None →
  forwarded (props p) !! "progressIndex" = None →
  storyProps !! "progressIndex" = Some VUndefined.
Proof.
  intros Hm Hview Hchild Hi Hentry Hprops.
  rewrite (render_renderItem _ _ _ _ _ _ _ _ Hm) in Hview.
  apply renderItem_Some in Hview as (item' & i' & s & l & _ & _ & _ & ->).
  apply child_story_inv in Hchild as (_ & _ & ->).
  rewrite (proj1 (storyProps_index _ _ _ _ _ _)) in Hi. injection Hi as ->.
  rewrite storyProps_literal; [| done .. |].
  - rewrite (proj1 (literalProps_lookup _ _ _ _)).
    by rewrite (proj1 (progressIndex_absent _ _ Hentry)).
  - rewrite forwarded_itemRest; [done |].
    intros Hin. repeat (apply elem_of_cons in Hin as [Heq | Hin]; [discriminate |]).
    by apply elem_of_nil in Hin.
Qed.

Lemma progressIndex_undefined_without_entry_witness :
  storyContainerProps (group 1) 0 0 None (Some []) (itemRest noProps)
    !! "progressIndex" = Some VUndefined.
Proof.
  apply (progressIndex_undefined_without_entry demoCube demoScale demoDefault
           demoMetrics (twoGroups None) (hookAt 0) (worldWith None) _ (group 1) 0 0
           _ demoDefault _ eq_refl eq_refl eq_refl); reflexivity.
Defined.

(** X19: the list item [renderItem] builds mounts a story exactly when the
    [storyIndex] it receives equals the [index] it receives or the
    [isLoading] it receives is true.  Each of the three is the rest prop of
    that name when the caller passed one, and otherwise the hook's
    [storyIndex], the item's position in the list and the [isLoading]
    state, which is false until the list's [onLayout]. *)
Theorem rendered_item_mounts_story {AnimatedStyle : Type}
    (cubeTransition scaleTransition : Z → SharedValue → AnimatedStyle)
    (defaultTransition : AnimatedStyle) (Metrics : Theme)
    (p : MultiStoryContainerProps) (h : HookResult) (w : World)
    (m : Modal AnimatedStyle) (item : StoriesType) (index : Z)
    (view : ItemView AnimatedStyle) :
  MultiStoryContainer cubeTransition scaleTransition defaultTransition Metrics p h w
    = Some m →
  FlatList.renderItem _ (flatList _ (pan _ (root _ m))) item index = Some view →
  (isStoryContainer (child view) = true ↔
     default (VNum (storyIndex h)) (forwarded (props p) !! "storyIndex")
       = default (VNum index) (forwarded (props p) !! "index") ∨
     default (VBool (isLoading w)) (forwarded (props p) !! "isLoading")
       = VBool true).
Proof.
  intros Hm Hview. rewrite (render_renderItem _ _ _ _ _ _ _ _ Hm) in Hview.
  apply renderItem_Some in Hview as (item' & i & s & l & -> & -> & -> & ->).
  split.
  - destruct (child _) eqn:Hc; try discriminate.
    intros _. apply child_story_inv in Hc as [[-> | ->] _]; auto.
  - intros Hcond. rewrite child_story; [done |].
    destruct Hcond as [[= ->] | [= ->]]; auto.
Qed.

Lemma rendered_item_mounts_story_witness :
  ∃ m view,
    demoContainer overridden (hookAt 0) (worldWith None) = Some m ∧
    FlatList.renderItem _ (flatList _ (pan _ (root _ m))) (group 1) 0 = Some view ∧
    (isStoryContainer (child view) = true ↔
       default (VNum 0) (forwarded (props overridden) !! "storyIndex")
         = default (VNum 0) (forwarded (props overridden) !! "index") ∨
       default (VBool false) (forwarded (props overridden) !! "isLoading")
         = VBool true).
Proof.
  eexists _, _. split; [reflexivity |]. split; [reflexivity |].
  apply (rendered_item_mounts_story demoCube demoScale demoDefault demoMetrics
           overridden (hookAt 0) (worldWith None) _ (group 1) 0 _ eq_refl eq_refl).
Defined.

(** X20: [setIsLoading] is only ever called with [true]: once [isLoading]
    is set, no handler, ref callback or effect of the container clears
    it. *)
Theorem isLoading_never_cleared (p : MultiStoryContainerProps) (h : HookResult)
    (w : World) (v : bool) (index : Z) (elements : option handle) (m : M unit) :
  isLoading w = true →
  m ∈ [nextStory p h; previousStory h; onScrollBeginDrag h; onScrollEndDrag h;
       handleLongPress h v; sliceItemsRef p; itemRef index elements;
       commitIndexEffect p h; onLayout] →
  isLoading (exec m w) = true.
Proof.
  intros Hw Hm.
  destruct (isLoading_kept p h w) as (H1 & H2 & H3 & H4 & H5 & H6 & H7 & H8).
  repeat (apply elem_of_cons in Hm as [-> | Hm];
          [first [ congruence | by rewrite H5 | by rewrite H7
                 | apply isLoading_after_onLayout ] |]).
  by apply elem_of_nil in Hm.
Qed.

Lemma isLoading_never_cleared_witness :
  isLoading (exec (sliceItemsRef (twoGroups None)) worldWithItems) = true.
Proof.
  apply (isLoading_never_cleared (twoGroups None) (hookAt 0) worldWithItems true 0
           None (sliceItemsRef (twoGroups None))); [reflexivity |].
  do 5 apply list_elem_of_further. apply list_elem_of_here.
Defined.

(** X21: the three ways of finishing agree.  The modal's [onRequestClose],
    the close button of a group's header and [nextStory] on the last group
    all do the same thing: they call [onComplete] once when the caller
    passed it, do nothing when not, and never scroll the list. *)
Theorem finishing_paths_agree {AnimatedStyle : Type}
    (cubeTransition scaleTransition : Z → SharedValue → AnimatedStyle)
    (defaultTransition : AnimatedStyle) (Metrics : Theme)
    (p : MultiStoryContainerProps) (h : HookResult) (w w' : World)
    (m : Modal AnimatedStyle) (item : StoriesType) :
  MultiStoryContainer cubeTransition scaleTransition defaultTransition Metrics p h w
    = Some m →
  storyIndex h + 1 = Z.of_nat (length (stories p)) →
  let finish := match onComplete p with
                | Some f => [CallOnComplete f]
                | None => []
                end in
  exec (onRequestClose _ m) w' = appended finish w' ∧
  exec (onClosePress (renderHeaderComponent item (onComplete p))) w'
    = appended finish w' ∧
  exec (nextStory p h) w' = appended finish w'.
Proof.
  intros Hm Hlast. simpl.
  unfold MultiStoryContainer in Hm. destruct (visible p); [| done].
  injection Hm as <-. simpl. rewrite exec_nextStory_last by done.
  rewrite exec_call_opt. destruct (onComplete p); by rewrite ?appended_nil.
Qed.

Lemma finishing_paths_agree_witness :
  exec (onClosePress (renderHeaderComponent (group 2) (Some 9%nat))) (worldWith None)
    = appended [CallOnComplete 9%nat] (worldWith None).
Proof.
  apply (finishing_paths_agree demoCube demoScale demoDefault demoMetrics
           (twoGroups (Some 9%nat)) (hookAt 1) (worldWith None) (worldWith None)
           _ (group 2) eq_refl). reflexivity.
Defined.
